(** * pymata_iot: the WebSocket command dispatcher of pymata-aio

    A shallow embedding of [pymata_aio/pymata_iot.py] (class [PymataIOT]).

    - Python values that travel through the dispatcher are the inductive
      [pyval]: what [json.loads] can produce, plus an opaque constructor for
      objects [json.dumps] cannot encode (the callback stored at the end of a
      latch record).
    - The coroutines are written in a small monad [M] that threads the
      chronological trace of observable effects (calls on [self.core],
      [sendMessage], [print], [asyncio.sleep]) and carries Python exceptions.
      A [yield from] is sequencing: the generator is run to completion by the
      event loop.
    - [self.core] (class [PymataCore]) is outside the file: its answers are a
      Section variable, a function of the trace so far and of the call.
    - The JSON text codec is the [json] module's.  A message is its document
      tree: [json.dumps] is the check that the tree is encodable, and the
      payload of [onMessage] is observed through [len] and [json.loads] only.
*)

From Stdlib Require Import ZArith String Ascii List Lia.
From stdpp Require Import base option list strings pretty gmap.

Local Open Scope Z_scope.

(** ** Python values *)

(** A Python [float]: binary64 seen as a dyadic number [m * 2^e], or one of
    the non-finite values. *)
Inductive pyfloat : Type :=
| FNaN
| FInf (negative : bool)
| FDyadic (m e : Z).

#[warnings="-register-all"]
Inductive pyval : Type :=
| PNone
| PBool (b : bool)
| PInt (n : Z)
| PFloat (f : pyfloat)
| PStr (s : string)
| PList (l : list pyval)
| PDict (items : list (string * pyval))
| PObject (name : string).

Inductive exn : Type :=
| TypeError
| ValueError
| IndexError
| KeyError
| AttributeError
| OverflowError
| OtherError (name : string).

Inductive outcome (A : Type) : Type :=
| Ok (a : A)
| Raise (e : exn).
Arguments Ok {A} a.
Arguments Raise {A} e.

Definition obind {A B} (o : outcome A) (k : A -> outcome B) : outcome B :=
  match o with
  | Ok a => k a
  | Raise e => Raise e
  end.

(** ** The builtins the dispatcher uses *)

Module Py.

(** [bool(v)], as tested by [if value:]. *)
Definition truthy (v : pyval) : bool :=
  match v with
  | PNone => false
  | PBool b => b
  | PInt n => negb (n =? 0)
  | PFloat (FDyadic m _) => negb (m =? 0)
  | PFloat _ => true
  | PStr s => negb (Nat.eqb (String.length s) 0)
  | PList l => negb (Nat.eqb (List.length l) 0)
  | PDict d => negb (Nat.eqb (List.length d) 0)
  | PObject _ => true
  end.

(** [v == s] for a [str] literal [s]. *)
Definition eq_str (v : pyval) (s : string) : bool :=
  match v with
  | PStr t => String.eqb t s
  | _ => false
  end.

Fixpoint dict_get (d : list (string * pyval)) (k : string) : option pyval :=
  match d with
  | [] => None
  | (k', v) :: d' => if String.eqb k' k then Some v else dict_get d' k
  end.

(** [v.get(k)] for a [str] literal [k]: only a dict has the method. *)
Definition get (v : pyval) (k : string) : outcome pyval :=
  match v with
  | PDict d => Ok (default PNone (dict_get d k))
  | _ => Raise AttributeError
  end.

(** [v[i]] for a literal index [i >= 0]. *)
Definition getitem (v : pyval) (i : nat) : outcome pyval :=
  match v with
  | PList l =>
      match nth_error l i with
      | Some x => Ok x
      | None => Raise IndexError
      end
  | PStr s =>
      match String.get i s with
      | Some c => Ok (PStr (String c EmptyString))
      | None => Raise IndexError
      end
  | PDict _ => Raise KeyError
  | _ => Raise TypeError
  end.

(** [v[0:-1]]. *)
Definition slice_0_m1 (v : pyval) : outcome pyval :=
  match v with
  | PList l => Ok (PList (removelast l))
  | PStr s => Ok (PStr (String.substring 0 (String.length s - 1) s))
  | _ => Raise TypeError
  end.

(** The elements [for i in v] goes through. *)
Definition iter (v : pyval) : outcome (list pyval) :=
  match v with
  | PList l => Ok l
  | PStr s =>
      Ok (List.map (fun c => PStr (String c EmptyString))
            (list_ascii_of_string s))
  | PDict d => Ok (List.map (fun kv => PStr (fst kv)) d)
  | _ => Raise TypeError
  end.

(** *** [int(v)] *)

(** A [str] is read in base ten as CPython 3.6 to 3.10 reads it: surrounding
    whitespace dropped, an optional sign, then digits in which single
    underscores may separate two digits.  Characters are the code points
    below 256.  The whitespace [int] drops is tab to carriage return and the
    space, and of the code points above 126 the two that are Unicode
    whitespace, U+0085 and U+00A0; the separators U+001C to U+001F are kept
    and make the literal invalid. *)

Definition is_space (c : ascii) : bool :=
  let n := N_of_ascii c in
  (((9 <=? n) && (n <=? 13)) || (n =? 32) || (n =? 133) || (n =? 160))%N.

Definition is_digit (c : ascii) : bool :=
  let n := N_of_ascii c in ((48 <=? n) && (n <=? 57))%N.

Definition digit_val (c : ascii) : Z := Z.of_N (N_of_ascii c) - 48.

(** Decimal digits, single underscores allowed between two digits. *)
Fixpoint digits_go (acc : Z) (after_us : bool) (s : list ascii) : option Z :=
  match s with
  | [] => if after_us then None else Some acc
  | c :: r =>
      if is_digit c then digits_go (10 * acc + digit_val c) false r
      else if Ascii.eqb c "_"%char then
             if after_us then None else digits_go acc true r
           else None
  end.

Definition digits (s : list ascii) : option Z :=
  match s with
  | c :: r => if is_digit c then digits_go (digit_val c) false r else None
  | [] => None
  end.

Fixpoint lstrip (s : list ascii) : list ascii :=
  match s with
  | c :: r => if is_space c then lstrip r else s
  | [] => []
  end.

Definition strip (s : list ascii) : list ascii :=
  rev (lstrip (rev (lstrip s))).

Definition int_of_str (s : string) : option Z :=
  match strip (list_ascii_of_string s) with
  | c :: r =>
      if Ascii.eqb c "-"%char then Z.opp <$> digits r
      else if Ascii.eqb c "+"%char then digits r
      else digits (c :: r)
  | [] => None
  end.

Definition int (v : pyval) : outcome Z :=
  match v with
  | PInt n => Ok n
  | PBool b => Ok (if b then 1 else 0)
  | PFloat FNaN => Raise ValueError
  | PFloat (FInf _) => Raise OverflowError
  | PFloat (FDyadic m e) =>
      Ok (if 0 <=? e then m * 2 ^ e else Z.quot m (2 ^ (- e)))
  | PStr s =>
      match int_of_str s with
      | Some n => Ok n
      | None => Raise ValueError
      end
  | _ => Raise TypeError
  end.

(** *** [json.dumps] *)

(** Whether [json.dumps] has an encoding for the value. *)
Fixpoint encodable (v : pyval) : bool :=
  match v with
  | PObject _ => false
  | PList l => forallb encodable l
  | PDict d => forallb (fun kv => encodable (snd kv)) d
  | _ => true
  end.

End Py.

(** ** The device interface, as the dispatcher sees it *)

(** References to the bound methods handed to the core as callbacks. *)
Inductive callback : Type :=
| cb_analog_callback
| cb_analog_latch_callback
| cb_digital_callback
| cb_digital_latch_callback
| cb_encoder_callback
| cb_i2c_read_request_callback
| cb_sonar_callback.

(** One constructor per [self.core.<name>(...)] call site, with the
    arguments in call order. *)
Module Core.
Inductive call : Type :=
| analog_read (pin : Z)
| analog_write (pin value : Z)
| digital_read (pin : Z)
| digital_write (pin value : Z)
| disable_analog_reporting (pin : Z)
| disable_digital_reporting (pin : Z)
| enable_analog_reporting (pin : Z)
| enable_digital_reporting (pin : Z)
| encoder_config (pin_a pin_b : Z) (cb : callback)
| encoder_read (pin : Z)
| get_analog_latch_data (pin : Z)
| get_analog_map
| get_capability_report
| get_digital_latch_data (pin : Z)
| get_firmware_version
| get_pin_state (pin : Z)
| get_protocol_version
| get_pymata_version
| i2c_config (delay : Z)
| i2c_read_data (address : Z)
| i2c_read_request (device_address register number_of_bytes read_type : Z)
    (cb : callback)
| i2c_write_request (device_address : Z) (params : list Z)
| play_tone (pin tone_command frequency duration : Z)
| set_analog_latch (pin threshold_type threshold_value : Z) (cb : callback)
| set_digital_latch (pin threshold_value : Z) (cb : callback)
| set_pin_mode (pin mode : Z) (cb : option callback)
| set_sampling_interval (sample_interval : Z)
| sonar_config (trigger echo : Z) (cb : callback) (interval max_dist : Z)
| sonar_data_retrieve (pin : Z)
| servo_config (pin min_pulse max_pulse : Z)
| stepper_config (steps_per_revs : Z) (pins : list Z)
| stepper_step (speed num_steps : Z)
| shutdown
| send_reset.
End Core.

(** The members of [pymata_aio.constants.Constants] the file reads. *)
Record Constants : Type := {
  I2C_READ : Z;
  I2C_READ_CONTINUOUSLY : Z;
  I2C_STOP_READING : Z;
  I2C_END_TX_MASK : Z;
  TONE_TONE : Z;
  TONE_NO_TONE : Z;
  INPUT : Z;
  ANALOG : Z
}.

(** ** Effects *)

Inductive event : Type :=
| Call (c : Core.call)
| SendMessage (m : pyval)
| Stdout (s : string)
| Sleep (seconds : Z).

Definition trace := list event.

Definition M (A : Type) : Type := trace -> outcome A * trace.

Definition ret {A} (a : A) : M A := fun tr => (Ok a, tr).

Definition raise {A} (e : exn) : M A := fun tr => (Raise e, tr).

Definition bind {A B} (m : M A) (k : A -> M B) : M B :=
  fun tr =>
    match m tr with
    | (Ok a, tr') => k a tr'
    | (Raise e, tr') => (Raise e, tr')
    end.

Definition lift {A} (o : outcome A) : M A := fun tr => (o, tr).

Definition emit (e : event) : M unit := fun tr => (Ok tt, tr ++ [e]).

Notation "x <- m ;; k" := (bind m (fun x => k))
  (at level 100, m at next level, right associativity).
Notation "m ;; k" := (bind m (fun _ => k))
  (at level 100, right associativity).

(** The messages sent and the core calls made along a trace. *)
Definition sent (tr : trace) : list pyval :=
  omap (fun e => match e with SendMessage m => Some m | _ => None end) tr.

Definition calls (tr : trace) : list Core.call :=
  omap (fun e => match e with Call c => Some c | _ => None end) tr.

(** ** Wall-clock rendering *)

(** A naive [datetime.datetime], down to the second. *)
Record datetime : Type := {
  year : Z; month : Z; day : Z; hour : Z; minute : Z; second : Z
}.

Definition datetime_ok (d : datetime) : Prop :=
  1 <= year d <= 9999 /\ 1 <= month d <= 12 /\ 1 <= day d <= 31 /\
  0 <= hour d <= 23 /\ 0 <= minute d <= 59 /\ 0 <= second d <= 59.

Definition digit_char (d : Z) : ascii := ascii_of_N (48 + Z.to_N (d mod 10)).

Definition pad2 (n : Z) (rest : string) : string :=
  String (digit_char (n / 10)) (String (digit_char n) rest).

Definition pad4 (n : Z) (rest : string) : string :=
  String (digit_char (n / 1000)) (String (digit_char (n / 100)) (pad2 n rest)).

(** [d.strftime('%Y-%m-%d %H:%M:%S')] as the C library of the host renders
    it: the year in decimal without padding, every other field zero-padded
    to two digits. *)
Definition strftime (d : datetime) : string :=
  pretty (year d) +:+
  String "-" (pad2 (month d) (String "-" (pad2 (day d)
    (String " " (pad2 (hour d) (String ":" (pad2 (minute d)
      (String ":" (pad2 (second d) EmptyString))))))))).

(** ** The class [PymataIOT] *)

(** References to the handlers stored in [command_map]. *)
Module Self.
Inductive method : Type :=
| analog_read | analog_write | digital_read | digital_write
| disable_analog_reporting | disable_digital_reporting
| enable_analog_reporting | enable_digital_reporting
| encoder_config | encoder_read
| get_analog_latch_data | get_analog_map | get_capability_report
| get_digital_latch_data | get_firmware_version | get_pinstate_report
| get_protocol_version | get_pymata_version
| i2c_config | i2c_read_data | i2c_read_request | i2c_write_request
| play_tone | set_analog_latch | set_digital_latch | set_pin_mode
| set_sampling_interval | sonar_config | sonar_read | servo_config
| stepper_config | stepper_step.
End Self.

(** What [onMessage] observes of its [payload]: [len(payload)] and
    [json.loads(payload.decode('utf8'))]. *)
Record payload_t : Type := {
  payload_len : nat;
  json_loads : outcome pyval
}.

(** A text frame that decodes to [doc]; its length is read on the binary
    path only. *)
Definition text (doc : pyval) : payload_t :=
  {| payload_len := 0%nat; json_loads := Ok doc |}.

(** The dict literal [{"method": m, "params": p}]. *)
Definition message (m : string) (p : pyval) : pyval :=
  PDict [("method"%string, PStr m); ("params"%string, p)].

(** [self.command_map], as [__init__] builds it. *)
Definition command_map : gmap string Self.method :=
  list_to_map [
    ("analog_read", Self.analog_read);
    ("analog_write", Self.analog_write);
    ("digital_read", Self.digital_read);
    ("digital_write", Self.digital_write);
    ("disable_analog_reporting", Self.disable_analog_reporting);
    ("disable_digital_reporting", Self.disable_digital_reporting);
    ("enable_analog_reporting", Self.disable_analog_reporting);
    ("enable_digital_reporting", Self.disable_digital_reporting);
    ("encoder_config", Self.encoder_config);
    ("encoder_read", Self.encoder_read);
    ("get_analog_latch_data", Self.get_analog_latch_data);
    ("get_analog_map", Self.get_analog_map);
    ("get_capability_report", Self.get_capability_report);
    ("get_digital_latch_data", Self.get_digital_latch_data);
    ("get_firmware_version", Self.get_firmware_version);
    ("get_pin_state", Self.get_pinstate_report);
    ("get_protocol_version", Self.get_protocol_version);
    ("get_pymata_version", Self.get_pymata_version);
    ("i2c_config", Self.i2c_config);
    ("i2c_read_data", Self.i2c_read_data);
    ("i2c_read_request", Self.i2c_read_request);
    ("i2c_write_request", Self.i2c_write_request);
    ("play_tone", Self.play_tone);
    ("set_analog_latch", Self.set_analog_latch);
    ("set_digital_latch", Self.set_digital_latch);
    ("set_pin_mode", Self.set_pin_mode);
    ("set_sampling_interval", Self.set_sampling_interval);
    ("sonar_config", Self.sonar_config);
    ("sonar_read", Self.sonar_read);
    ("servo_config", Self.servo_config);
    ("stepper_config", Self.stepper_config);
    ("stepper_step", Self.stepper_step)
  ]%string.

(** [key in self.command_map]: hashing a list or a dict raises. *)
Definition command_map_contains (key : pyval) : outcome bool :=
  match key with
  | PStr s => Ok (bool_decide (is_Some (command_map !! s)))
  | PList _ | PDict _ => Raise TypeError
  | _ => Ok false
  end.

(** [self.command_map.get(key)], for a hashable key. *)
Definition command_map_get (key : pyval) : option Self.method :=
  match key with
  | PStr s => command_map !! s
  | _ => None
  end.

Section PymataIOT.

Variable K : Constants.

(** [self.core]: the value a call resolves to (or the exception it
    raises), given everything that happened before. *)
Variable core : trace -> Core.call -> outcome pyval.

(** [datetime.datetime.fromtimestamp], in the host's local time zone. *)
Variable fromtimestamp : pyval -> outcome datetime.

(** [yield from self.core.<call>]. *)
Definition await (c : Core.call) : M pyval :=
  fun tr => (core tr c, tr ++ [Call c]).

Definition sendMessage (reply : pyval) : M unit := emit (SendMessage reply).

Definition print (s : string) : M unit := emit (Stdout s).

(** [json.dumps(v)]. *)
Definition json_dumps (v : pyval) : M pyval :=
  if Py.encodable v then ret v else raise TypeError.

(** [int(v[i])]. *)
Definition int_at (v : pyval) (i : nat) : M Z :=
  lift (obind (Py.getitem v i) Py.int).

Definition item (v : pyval) (i : nat) : M pyval := lift (Py.getitem v i).

Definition analog_read (command : pyval) : M unit :=
  pin <- int_at command 0 ;;
  data_val <- await (Core.analog_read pin) ;;
  reply <- json_dumps
    (message "analog_read_reply" (PList [PInt pin; data_val])) ;;
  sendMessage reply.

Definition analog_write (command : pyval) : M unit :=
  pin <- int_at command 0 ;;
  value <- int_at command 1 ;;
  await (Core.analog_write pin value) ;; ret tt.

Definition digital_read (command : pyval) : M unit :=
  pin <- int_at command 0 ;;
  data_val <- await (Core.digital_read pin) ;;
  reply <- json_dumps
    (message "digital_read_reply" (PList [PInt pin; data_val])) ;;
  sendMessage reply.

Definition digital_write (command : pyval) : M unit :=
  pin <- int_at command 0 ;;
  value <- int_at command 1 ;;
  await (Core.digital_write pin value) ;; ret tt.

Definition disable_analog_reporting (command : pyval) : M unit :=
  pin <- int_at command 0 ;;
  await (Core.disable_analog_reporting pin) ;; ret tt.

Definition disable_digital_reporting (command : pyval) : M unit :=
  pin <- int_at command 0 ;;
  await (Core.disable_digital_reporting pin) ;; ret tt.

Definition enable_analog_reporting (command : pyval) : M unit :=
  pin <- int_at command 0 ;;
  await (Core.enable_analog_reporting pin) ;; ret tt.

Definition enable_digital_reporting (command : pyval) : M unit :=
  pin <- int_at command 0 ;;
  await (Core.enable_digital_reporting pin) ;; ret tt.

Definition encoder_config (command : pyval) : M unit :=
  pin_a <- int_at command 0 ;;
  pin_b <- int_at command 1 ;;
  await (Core.encoder_config pin_a pin_b cb_encoder_callback) ;; ret tt.

Definition encoder_read (command : pyval) : M unit :=
  pin <- int_at command 0 ;;
  val <- await (Core.encoder_read pin) ;;
  reply <- json_dumps
    (message "encoder_read_reply" (PList [PInt pin; val])) ;;
  sendMessage reply.

Definition get_analog_latch_data (command : pyval) : M unit :=
  pin <- int_at command 0 ;;
  data_val <- await (Core.get_analog_latch_data pin) ;;
  data_val <- (if Py.truthy data_val
               then lift (Py.slice_0_m1 data_val)
               else ret data_val) ;;
  reply <- json_dumps
    (message "get_analog_latch_data_reply" (PList [PInt pin; data_val])) ;;
  sendMessage reply.

Definition get_analog_map : M unit :=
  value <- await Core.get_analog_map ;;
  reply <- (if Py.truthy value
            then json_dumps (message "analog_map_reply" value)
            else json_dumps (message "analog_map_reply" (PStr "None"))) ;;
  sendMessage reply.

(** The [asyncio.sleep(.1)] of the source is built and dropped, never
    awaited: it has no effect. *)
Definition get_capability_report : M unit :=
  value <- await Core.get_capability_report ;;
  reply <- (if Py.truthy value
            then json_dumps (message "capability_report_reply" value)
            else json_dumps
                   (message "capability_report_reply" (PStr "None"))) ;;
  sendMessage reply.

Definition get_digital_latch_data (command : pyval) : M unit :=
  pin <- int_at command 0 ;;
  data_val <- await (Core.get_digital_latch_data pin) ;;
  data_val <- (if Py.truthy data_val
               then lift (Py.slice_0_m1 data_val)
               else ret data_val) ;;
  reply <- json_dumps
    (message "get_digital_latch_data_reply" (PList [PInt pin; data_val])) ;;
  sendMessage reply.

Definition get_firmware_version : M unit :=
  value <- await Core.get_firmware_version ;;
  reply <- (if Py.truthy value
            then json_dumps (message "firmware_version_reply" value)
            else json_dumps
                   (message "firmware_version_reply" (PStr "Unknown"))) ;;
  sendMessage reply.

Definition get_pinstate_report (command : pyval) : M unit :=
  pin <- int_at command 0 ;;
  value <- await (Core.get_pin_state pin) ;;
  reply <- (if Py.truthy value
            then json_dumps (message "pin_state_reply" value)
            else json_dumps (message "pin_state_reply" (PStr "Unknown"))) ;;
  sendMessage reply.

Definition get_protocol_version : M unit :=
  value <- await Core.get_protocol_version ;;
  reply <- (if Py.truthy value
            then json_dumps (message "protocol_version_reply" value)
            else json_dumps
                   (message "protocol_version_reply" (PStr "Unknown"))) ;;
  sendMessage reply.

Definition get_pymata_version : M unit :=
  value <- await Core.get_pymata_version ;;
  reply <- (if Py.truthy value
            then json_dumps (message "pymata_version_reply" value)
            else json_dumps
                   (message "pymata_version_reply" (PStr "Unknown"))) ;;
  sendMessage reply.

Definition i2c_config (command : pyval) : M unit :=
  delay <- int_at command 0 ;;
  await (Core.i2c_config delay) ;; ret tt.

Definition i2c_read_data (command : pyval) : M unit :=
  address <- int_at command 0 ;;
  i2c_data <- await (Core.i2c_read_data address) ;;
  reply <- json_dumps (message "i2c_read_data_reply" i2c_data) ;;
  sendMessage reply.

(** The [if]/[elif] chain on [command[3]]. *)
Definition read_type_of (token : pyval) : Z :=
  if Py.eq_str token "0" then I2C_READ_CONTINUOUSLY K
  else if Py.eq_str token "1" then I2C_READ K
  else if Py.eq_str token "2" then Z.lor (I2C_READ K) (I2C_END_TX_MASK K)
  else if Py.eq_str token "3"
       then Z.lor (I2C_READ_CONTINUOUSLY K) (I2C_END_TX_MASK K)
  else I2C_STOP_READING K.

Definition i2c_read_request (command : pyval) : M unit :=
  device_address <- int_at command 0 ;;
  register <- int_at command 1 ;;
  number_of_bytes <- int_at command 2 ;;
  token <- item command 3 ;;
  let read_type := read_type_of token in
  await (Core.i2c_read_request device_address register number_of_bytes
           read_type cb_i2c_read_request_callback) ;;
  emit (Sleep 1).

(** [[int(i) for i in params]]. *)
Fixpoint ints (l : list pyval) : outcome (list Z) :=
  match l with
  | [] => Ok []
  | i :: r =>
      obind (Py.int i) (fun n => obind (ints r) (fun ns => Ok (n :: ns)))
  end.

Definition i2c_write_request (command : pyval) : M unit :=
  device_address <- int_at command 0 ;;
  params <- item command 1 ;;
  params <- lift (obind (Py.iter params) ints) ;;
  await (Core.i2c_write_request device_address params) ;; ret tt.

Definition play_tone (command : pyval) : M unit :=
  pin <- int_at command 0 ;;
  token <- item command 1 ;;
  let tone_command :=
    if Py.eq_str token "TONE_TONE" then TONE_TONE K else TONE_NO_TONE K in
  frequency <- int_at command 2 ;;
  duration <- int_at command 3 ;;
  await (Core.play_tone pin tone_command frequency duration) ;; ret tt.

Definition set_analog_latch (command : pyval) : M unit :=
  pin <- int_at command 0 ;;
  threshold_type <- int_at command 1 ;;
  threshold_value <- int_at command 2 ;;
  await (Core.set_analog_latch pin threshold_type threshold_value
           cb_analog_latch_callback) ;; ret tt.

Definition set_digital_latch (command : pyval) : M unit :=
  pin <- int_at command 0 ;;
  threshold_value <- int_at command 1 ;;
  await (Core.set_digital_latch pin threshold_value
           cb_digital_latch_callback) ;; ret tt.

Definition set_pin_mode (command : pyval) : M unit :=
  pin <- int_at command 0 ;;
  mode <- int_at command 1 ;;
  let cb :=
    if mode =? INPUT K then Some cb_digital_callback
    else if mode =? ANALOG K then Some cb_analog_callback
    else None in
  await (Core.set_pin_mode pin mode cb) ;; ret tt.

Definition set_sampling_interval (command : pyval) : M unit :=
  sample_interval <- int_at command 0 ;;
  await (Core.set_sampling_interval sample_interval) ;; ret tt.

Definition sonar_config (command : pyval) : M unit :=
  trigger <- int_at command 0 ;;
  echo <- int_at command 1 ;;
  interval <- int_at command 2 ;;
  max_dist <- int_at command 3 ;;
  await (Core.sonar_config trigger echo cb_sonar_callback interval max_dist) ;;
  ret tt.

Definition sonar_read (command : pyval) : M unit :=
  pin <- int_at command 0 ;;
  val <- await (Core.sonar_data_retrieve pin) ;;
  reply <- json_dumps (message "sonar_read_reply" (PList [PInt pin; val])) ;;
  sendMessage reply.

Definition servo_config (command : pyval) : M unit :=
  pin <- int_at command 0 ;;
  min_pulse <- int_at command 1 ;;
  max_pulse <- int_at command 2 ;;
  await (Core.servo_config pin min_pulse max_pulse) ;; ret tt.

Definition stepper_config (command : pyval) : M unit :=
  steps_per_revs <- int_at command 0 ;;
  pins <- item command 1 ;;
  pin1 <- int_at pins 0 ;;
  pin2 <- int_at pins 1 ;;
  pin3 <- int_at pins 2 ;;
  pin4 <- int_at pins 3 ;;
  await (Core.stepper_config steps_per_revs [pin1; pin2; pin3; pin4]) ;;
  ret tt.

Definition stepper_step (command : pyval) : M unit :=
  speed <- int_at command 0 ;;
  num_steps <- int_at command 1 ;;
  await (Core.stepper_step speed num_steps) ;; ret tt.

(** Calling a handler reference with the positional arguments [args]:
    a call whose argument count differs from the signature raises. *)
Definition with_command (f : pyval -> M unit) (args : list pyval) : M unit :=
  match args with
  | [command] => f command
  | _ => raise TypeError
  end.

Definition without_command (f : M unit) (args : list pyval) : M unit :=
  match args with
  | [] => f
  | _ => raise TypeError
  end.

Definition invoke (cmd : Self.method) : list pyval -> M unit :=
  match cmd with
  | Self.analog_read => with_command analog_read
  | Self.analog_write => with_command analog_write
  | Self.digital_read => with_command digital_read
  | Self.digital_write => with_command digital_write
  | Self.disable_analog_reporting => with_command disable_analog_reporting
  | Self.disable_digital_reporting => with_command disable_digital_reporting
  | Self.enable_analog_reporting => with_command enable_analog_reporting
  | Self.enable_digital_reporting => with_command enable_digital_reporting
  | Self.encoder_config => with_command encoder_config
  | Self.encoder_read => with_command encoder_read
  | Self.get_analog_latch_data => with_command get_analog_latch_data
  | Self.get_analog_map => without_command get_analog_map
  | Self.get_capability_report => without_command get_capability_report
  | Self.get_digital_latch_data => with_command get_digital_latch_data
  | Self.get_firmware_version => without_command get_firmware_version
  | Self.get_pinstate_report => with_command get_pinstate_report
  | Self.get_protocol_version => without_command get_protocol_version
  | Self.get_pymata_version => without_command get_pymata_version
  | Self.i2c_config => with_command i2c_config
  | Self.i2c_read_data => with_command i2c_read_data
  | Self.i2c_read_request => with_command i2c_read_request
  | Self.i2c_write_request => with_command i2c_write_request
  | Self.play_tone => with_command play_tone
  | Self.set_analog_latch => with_command set_analog_latch
  | Self.set_digital_latch => with_command set_digital_latch
  | Self.set_pin_mode => with_command set_pin_mode
  | Self.set_sampling_interval => with_command set_sampling_interval
  | Self.sonar_config => with_command sonar_config
  | Self.sonar_read => with_command sonar_read
  | Self.servo_config => with_command servo_config
  | Self.stepper_config => with_command stepper_config
  | Self.stepper_step => with_command stepper_step
  end.

(** Calling the result of [command_map.get]: [None] is not callable. *)
Definition call_cmd (cmd : option Self.method) (args : list pyval) : M unit :=
  match cmd with
  | Some h => invoke h args
  | None => raise TypeError
  end.

(** [str.format] of the close reason, [None] when the peer gave none. *)
Definition reason_str (reason : option string) : string :=
  default "None"%string reason.

Definition onClose (was_clean : bool) (code : option Z)
    (reason : option string) : M unit :=
  print ("WebSocket connection closed: " +:+ reason_str reason) ;;
  await Core.shutdown ;; ret tt.

Definition onConnect (peer : string) : M unit :=
  print ("Client connecting: " +:+ peer).

Definition onMessage (payload : payload_t) (is_binary : bool) : M unit :=
  if is_binary then
    print ("Binary message received: " +:+ pretty (payload_len payload)
           +:+ " bytes") ;;
    print "Expected text and not binary"
  else
    cmd_dict <- lift (json_loads payload) ;;
    client_cmd <- lift (Py.get cmd_dict "method") ;;
    known <- lift (command_map_contains client_cmd) ;;
    if (known : bool) then
      let cmd := command_map_get client_cmd in
      params <- lift (Py.get cmd_dict "params") ;;
      first <- item params 0 ;;
      if negb (Py.eq_str first "null")
      then call_cmd cmd [params]
      else call_cmd cmd []
    else ret tt.

Definition onOpen : M unit :=
  print "WebSocket connection open." ;;
  await Core.send_reset ;; ret tt.

Definition analog_callback (data : pyval) : M unit :=
  d0 <- item data 0 ;;
  d1 <- item data 1 ;;
  reply <- json_dumps (message "analog_message_reply" (PList [d0; d1])) ;;
  sendMessage reply.

Definition analog_latch_callback (data : pyval) : M unit :=
  ts <- item data 2 ;;
  dt <- lift (fromtimestamp ts) ;;
  let st := strftime dt in
  d0 <- item data 0 ;;
  d1 <- item data 1 ;;
  reply <- json_dumps
    (message "analog_latch_data_reply" (PList [d0; d1; PStr st])) ;;
  sendMessage reply.

Definition digital_callback (data : pyval) : M unit :=
  d0 <- item data 0 ;;
  d1 <- item data 1 ;;
  reply <- json_dumps (message "digital_message_reply" (PList [d0; d1])) ;;
  sendMessage reply.

Definition digital_latch_callback (data : pyval) : M unit :=
  ts <- item data 2 ;;
  dt <- lift (fromtimestamp ts) ;;
  let st := strftime dt in
  d0 <- item data 0 ;;
  d1 <- item data 1 ;;
  reply <- json_dumps
    (message "digital_latch_data_reply" (PList [d0; d1; PStr st])) ;;
  sendMessage reply.

Definition encoder_callback (data : pyval) : M unit :=
  reply <- json_dumps (message "encoder_data_reply" data) ;;
  sendMessage reply.

Definition i2c_read_request_callback (data : pyval) : M unit :=
  reply <- json_dumps (message "i2c_read_request_reply" data) ;;
  sendMessage reply.

Definition i2c_read_data_callback (data : pyval) : M unit :=
  reply <- json_dumps (message "i2c_read_data_reply" data) ;;
  sendMessage reply.

Definition sonar_callback (data : pyval) : M unit :=
  reply <- json_dumps (message "sonar_data_reply" data) ;;
  sendMessage reply.

(** The function behind a callback reference. *)
Definition run_callback (cb : callback) : pyval -> M unit :=
  match cb with
  | cb_analog_callback => analog_callback
  | cb_analog_latch_callback => analog_latch_callback
  | cb_digital_callback => digital_callback
  | cb_digital_latch_callback => digital_latch_callback
  | cb_encoder_callback => encoder_callback
  | cb_i2c_read_request_callback => i2c_read_request_callback
  | cb_sonar_callback => sonar_callback
  end.

End PymataIOT.

(** ** A sample host *)

(** The Firmata values of the constants. *)
Definition firmata_constants : Constants := {|
  I2C_READ := 8;
  I2C_READ_CONTINUOUSLY := 16;
  I2C_STOP_READING := 24;
  I2C_END_TX_MASK := 64;
  TONE_TONE := 0;
  TONE_NO_TONE := 1;
  INPUT := 0;
  ANALOG := 2
|}.

(** A board on which analog pin 2 reads 512, pin 3 holds a triggered latch
    and nothing else has been reported yet. *)
Definition bench_core (tr : trace) (c : Core.call) : outcome pyval :=
  match c with
  | Core.analog_read 2 => Ok (PInt 512)
  | Core.get_analog_latch_data 3 =>
      Ok (PList [PInt 1; PInt 0; PInt 500; PInt 512; PInt 1446647000;
                 PObject "analog_latch_callback"])
  | _ => Ok PNone
  end.

(** Days since 1970-01-01 to the civil date. *)
Definition civil_from_days (days : Z) : Z * Z * Z :=
  let z := days + 719468 in
  let era := z / 146097 in
  let doe := z - era * 146097 in
  let yoe := (doe - doe / 1460 + doe / 36524 - doe / 146096) / 365 in
  let doy := doe - (365 * yoe + yoe / 4 - yoe / 100) in
  let mp := (5 * doy + 2) / 153 in
  let d := doy - (153 * mp + 2) / 5 + 1 in
  let m := if mp <? 10 then mp + 3 else mp - 9 in
  let y := yoe + era * 400 + (if m <=? 2 then 1 else 0) in
  (y, m, d).

(** The broken-down UTC time of [t] seconds since the epoch, as the C
    library's [localtime_r] gives it on a host whose zone is UTC; it fails
    when the year does not fit the [int] field [tm_year]. *)
Definition utc_localtime (t : Z) : outcome datetime :=
  let '(y, m, d) := civil_from_days (t / 86400) in
  let s := t mod 86400 in
  if (y - 1900 <? - 2 ^ 31) || (2 ^ 31 - 1 <? y - 1900)
  then Raise (OtherError "OSError")
  else Ok {| year := y; month := m; day := d;
             hour := s / 3600; minute := s / 60 mod 60; second := s mod 60 |}.

Definition year_in_range (d : datetime) : bool :=
  (1 <=? year d) && (year d <=? 9999).

(** The datetime of a [time_t]: the year of the instant, and of the instant
    one day earlier that the fold detection probes, must be in 1..9999. *)
Definition utc_from_timet (t : Z) : outcome datetime :=
  obind (utc_localtime t) (fun dt =>
    if year_in_range dt
    then obind (utc_localtime (t - 86400)) (fun probe =>
           if year_in_range probe then Ok dt else Raise ValueError)
    else Raise ValueError).

(** [n / 2^j] rounded to the nearest integer, ties to even ([0 <= n],
    [0 < j]). *)
Definition round_half_even (n j : Z) : Z :=
  let q := n / 2 ^ j in
  let r := n mod 2 ^ j in
  let h := 2 ^ (j - 1) in
  if r <? h then q
  else if h <? r then q + 1
  else if Z.even q then q else q + 1.

(** [n * 2^s] rounded to the 53 significant bits of a binary64 ([0 <= n]). *)
Definition to_binary64 (n s : Z) : Z * Z :=
  let bits := Z.log2 n + 1 in
  if bits <=? 53 then (n, s)
  else (round_half_even n (bits - 53), s + (bits - 53)).

(** The whole seconds of the float [m * 2^e]: the integral part, moved by
    one when the fraction, scaled to microseconds in binary64 and rounded
    half to even, reaches a full second or is negative. *)
Definition float_seconds (m e : Z) : Z :=
  if 0 <=? e then m * 2 ^ e
  else
    let intpart := Z.quot m (2 ^ (- e)) in
    let frac := Z.rem m (2 ^ (- e)) in
    let '(n, s) := to_binary64 (Z.abs frac * 1000000) e in
    let us := Z.sgn frac
              * (if 0 <=? s then n * 2 ^ s else round_half_even n (- s)) in
    if 1000000 <=? us then intpart + 1
    else if us <? 0 then intpart - 1
    else intpart.

(** [datetime.datetime.fromtimestamp] on a 64-bit host whose zone is UTC
    (CPython 3.6 to 3.10 on glibc). *)
Definition utc_fromtimestamp (ts : pyval) : outcome datetime :=
  match ts with
  | PInt t =>
      if (- 2 ^ 63 <=? t) && (t <? 2 ^ 63) then utc_from_timet t
      else Raise OverflowError
  | PBool b => utc_from_timet (if b then 1 else 0)
  | PFloat FNaN => Raise ValueError
  | PFloat (FInf _) => Raise OverflowError
  | PFloat (FDyadic m e) =>
      let t := float_seconds m e in
      if (- 2 ^ 63 <=? t) && (t <=? 2 ^ 63) then utc_from_timet t
      else Raise OverflowError
  | _ => Raise TypeError
  end.

(** What the sample host renders for a timestamp. *)
Definition rendered (ts : pyval) : outcome string :=
  match utc_fromtimestamp ts with
  | Ok d => Ok (strftime d)
  | Raise e => Raise e
  end.

(** ** Query commands *)

(** The commands whose handler sends a reply. *)
Inductive query : Type :=
| Q_analog_read | Q_digital_read | Q_encoder_read | Q_sonar_read
| Q_get_analog_latch_data | Q_get_digital_latch_data
| Q_get_pin_state | Q_i2c_read_data
| Q_get_analog_map | Q_get_capability_report
| Q_get_firmware_version | Q_get_protocol_version | Q_get_pymata_version.

(** The inbound method name of a query. *)
Definition query_method (q : query) : string :=
  match q with
  | Q_analog_read => "analog_read"
  | Q_digital_read => "digital_read"
  | Q_encoder_read => "encoder_read"
  | Q_sonar_read => "sonar_read"
  | Q_get_analog_latch_data => "get_analog_latch_data"
  | Q_get_digital_latch_data => "get_digital_latch_data"
  | Q_get_pin_state => "get_pin_state"
  | Q_i2c_read_data => "i2c_read_data"
  | Q_get_analog_map => "get_analog_map"
  | Q_get_capability_report => "get_capability_report"
  | Q_get_firmware_version => "get_firmware_version"
  | Q_get_protocol_version => "get_protocol_version"
  | Q_get_pymata_version => "get_pymata_version"
  end.

(** Its params: one pin (or address) token, or the "null" sentinel. *)
Definition query_params (q : query) (token : pyval) : pyval :=
  match q with
  | Q_get_analog_map | Q_get_capability_report | Q_get_firmware_version
  | Q_get_protocol_version | Q_get_pymata_version => PList [PStr "null"]
  | _ => PList [token]
  end.

(** The core operation it awaits. *)
Definition query_call (q : query) (pin : Z) : Core.call :=
  match q with
  | Q_analog_read => Core.analog_read pin
  | Q_digital_read => Core.digital_read pin
  | Q_encoder_read => Core.encoder_read pin
  | Q_sonar_read => Core.sonar_data_retrieve pin
  | Q_get_analog_latch_data => Core.get_analog_latch_data pin
  | Q_get_digital_latch_data => Core.get_digital_latch_data pin
  | Q_get_pin_state => Core.get_pin_state pin
  | Q_i2c_read_data => Core.i2c_read_data pin
  | Q_get_analog_map => Core.get_analog_map
  | Q_get_capability_report => Core.get_capability_report
  | Q_get_firmware_version => Core.get_firmware_version
  | Q_get_protocol_version => Core.get_protocol_version
  | Q_get_pymata_version => Core.get_pymata_version
  end.

(** The reply expected when the operation resolved to the falsy value [v]:
    a sentinel string for the version, pin state, map and capability
    queries, the value itself for the others. *)
Definition falsy_reply (q : query) (pin : Z) (v : pyval) : pyval :=
  match q with
  | Q_analog_read => message "analog_read_reply" (PList [PInt pin; v])
  | Q_digital_read => message "digital_read_reply" (PList [PInt pin; v])
  | Q_encoder_read => message "encoder_read_reply" (PList [PInt pin; v])
  | Q_sonar_read => message "sonar_read_reply" (PList [PInt pin; v])
  | Q_get_analog_latch_data =>
      message "get_analog_latch_data_reply" (PList [PInt pin; v])
  | Q_get_digital_latch_data =>
      message "get_digital_latch_data_reply" (PList [PInt pin; v])
  | Q_get_pin_state => message "pin_state_reply" (PStr "Unknown")
  | Q_i2c_read_data => message "i2c_read_data_reply" v
  | Q_get_analog_map => message "analog_map_reply" (PStr "None")
  | Q_get_capability_report =>
      message "capability_report_reply" (PStr "None")
  | Q_get_firmware_version =>
      message "firmware_version_reply" (PStr "Unknown")
  | Q_get_protocol_version =>
      message "protocol_version_reply" (PStr "Unknown")
  | Q_get_pymata_version => message "pymata_version_reply" (PStr "Unknown")
  end.

(** ** Reading a rendered timestamp *)

(** The decimal number written in [len] characters of [s] from [pos]. *)
Definition read_field (s : string) (pos len : nat) : option Z :=
  Py.digits (list_ascii_of_string (String.substring pos len s)).

(** ** Reasoning about one run *)

(** [post m Q]: from any trace, [m] only appends events, and its outcome
    and the events it appended satisfy [Q]. *)
Definition post {A} (m : M A) (Q : outcome A -> trace -> Prop) : Prop :=
  forall tr, exists o suf, m tr = (o, tr ++ suf) /\ Q o suf.

(** ** Tables read off the handlers *)

(** Handlers declared with a [command] parameter. *)
Definition takes_command (cmd : Self.method) : bool :=
  match cmd with
  | Self.get_analog_map | Self.get_capability_report
  | Self.get_firmware_version | Self.get_protocol_version
  | Self.get_pymata_version => false
  | _ => true
  end.

(** Handlers whose body ends in [self.sendMessage]. *)
Definition replies (cmd : Self.method) : bool :=
  match cmd with
  | Self.analog_read | Self.digital_read | Self.encoder_read
  | Self.sonar_read | Self.i2c_read_data
  | Self.get_analog_latch_data | Self.get_digital_latch_data
  | Self.get_pinstate_report
  | Self.get_analog_map | Self.get_capability_report
  | Self.get_firmware_version | Self.get_protocol_version
  | Self.get_pymata_version => true
  | _ => false
  end.

(** The name of the [PymataCore] method behind a call. *)
Definition operation_name (c : Core.call) : string :=
  match c with
  | Core.analog_read _ => "analog_read"
  | Core.analog_write _ _ => "analog_write"
  | Core.digital_read _ => "digital_read"
  | Core.digital_write _ _ => "digital_write"
  | Core.disable_analog_reporting _ => "disable_analog_reporting"
  | Core.disable_digital_reporting _ => "disable_digital_reporting"
  | Core.enable_analog_reporting _ => "enable_analog_reporting"
  | Core.enable_digital_reporting _ => "enable_digital_reporting"
  | Core.encoder_config _ _ _ => "encoder_config"
  | Core.encoder_read _ => "encoder_read"
  | Core.get_analog_latch_data _ => "get_analog_latch_data"
  | Core.get_analog_map => "get_analog_map"
  | Core.get_capability_report => "get_capability_report"
  | Core.get_digital_latch_data _ => "get_digital_latch_data"
  | Core.get_firmware_version => "get_firmware_version"
  | Core.get_pin_state _ => "get_pin_state"
  | Core.get_protocol_version => "get_protocol_version"
  | Core.get_pymata_version => "get_pymata_version"
  | Core.i2c_config _ => "i2c_config"
  | Core.i2c_read_data _ => "i2c_read_data"
  | Core.i2c_read_request _ _ _ _ _ => "i2c_read_request"
  | Core.i2c_write_request _ _ => "i2c_write_request"
  | Core.play_tone _ _ _ _ => "play_tone"
  | Core.set_analog_latch _ _ _ _ => "set_analog_latch"
  | Core.set_digital_latch _ _ _ => "set_digital_latch"
  | Core.set_pin_mode _ _ _ => "set_pin_mode"
  | Core.set_sampling_interval _ => "set_sampling_interval"
  | Core.sonar_config _ _ _ _ _ => "sonar_config"
  | Core.sonar_data_retrieve _ => "sonar_data_retrieve"
  | Core.servo_config _ _ _ => "servo_config"
  | Core.stepper_config _ _ => "stepper_config"
  | Core.stepper_step _ _ => "stepper_step"
  | Core.shutdown => "shutdown"
  | Core.send_reset => "send_reset"
  end.

(** The callback a call hands to the core, if any. *)
Definition registered (c : Core.call) : option callback :=
  match c with
  | Core.encoder_config _ _ cb => Some cb
  | Core.i2c_read_request _ _ _ _ cb => Some cb
  | Core.set_analog_latch _ _ _ cb => Some cb
  | Core.set_digital_latch _ _ cb => Some cb
  | Core.set_pin_mode _ _ cb => cb
  | Core.sonar_config _ _ cb _ _ => Some cb
  | _ => None
  end.

(** The method name of the notification a callback sends. *)
Definition notification (cb : callback) : string :=
  match cb with
  | cb_analog_callback => "analog_message_reply"
  | cb_analog_latch_callback => "analog_latch_data_reply"
  | cb_digital_callback => "digital_message_reply"
  | cb_digital_latch_callback => "digital_latch_data_reply"
  | cb_encoder_callback => "encoder_data_reply"
  | cb_i2c_read_request_callback => "i2c_read_request_reply"
  | cb_sonar_callback => "sonar_data_reply"
  end.

(** The two queries that slice the value before replying. *)
Definition is_latch_query (q : query) : bool :=
  match q with
  | Q_get_analog_latch_data | Q_get_digital_latch_data => true
  | _ => false
  end.

(** The reply expected when the operation resolved to the truthy value
    [v], for the queries that do not slice it. *)
Definition value_reply (q : query) (pin : Z) (v : pyval) : pyval :=
  match q with
  | Q_analog_read => message "analog_read_reply" (PList [PInt pin; v])
  | Q_digital_read => message "digital_read_reply" (PList [PInt pin; v])
  | Q_encoder_read => message "encoder_read_reply" (PList [PInt pin; v])
  | Q_sonar_read => message "sonar_read_reply" (PList [PInt pin; v])
  | Q_get_analog_latch_data =>
      message "get_analog_latch_data_reply" (PList [PInt pin; v])
  | Q_get_digital_latch_data =>
      message "get_digital_latch_data_reply" (PList [PInt pin; v])
  | Q_get_pin_state => message "pin_state_reply" v
  | Q_i2c_read_data => message "i2c_read_data_reply" v
  | Q_get_analog_map => message "analog_map_reply" v
  | Q_get_capability_report => message "capability_report_reply" v
  | Q_get_firmware_version => message "firmware_version_reply" v
  | Q_get_protocol_version => message "protocol_version_reply" v
  | Q_get_pymata_version => message "pymata_version_reply" v
  end.

(** The [PymataCore] method a handler awaits. *)
Definition handler_operation (cmd : Self.method) : string :=
  match cmd with
  | Self.analog_read => "analog_read"
  | Self.analog_write => "analog_write"
  | Self.digital_read => "digital_read"
  | Self.digital_write => "digital_write"
  | Self.disable_analog_reporting => "disable_analog_reporting"
  | Self.disable_digital_reporting => "disable_digital_reporting"
  | Self.enable_analog_reporting => "enable_analog_reporting"
  | Self.enable_digital_reporting => "enable_digital_reporting"
  | Self.encoder_config => "encoder_config"
  | Self.encoder_read => "encoder_read"
  | Self.get_analog_latch_data => "get_analog_latch_data"
  | Self.get_analog_map => "get_analog_map"
  | Self.get_capability_report => "get_capability_report"
  | Self.get_digital_latch_data => "get_digital_latch_data"
  | Self.get_firmware_version => "get_firmware_version"
  | Self.get_pinstate_report => "get_pin_state"
  | Self.get_protocol_version => "get_protocol_version"
  | Self.get_pymata_version => "get_pymata_version"
  | Self.i2c_config => "i2c_config"
  | Self.i2c_read_data => "i2c_read_data"
  | Self.i2c_read_request => "i2c_read_request"
  | Self.i2c_write_request => "i2c_write_request"
  | Self.play_tone => "play_tone"
  | Self.set_analog_latch => "set_analog_latch"
  | Self.set_digital_latch => "set_digital_latch"
  | Self.set_pin_mode => "set_pin_mode"
  | Self.set_sampling_interval => "set_sampling_interval"
  | Self.sonar_config => "sonar_config"
  | Self.sonar_read => "sonar_data_retrieve"
  | Self.servo_config => "servo_config"
  | Self.stepper_config => "stepper_config"
  | Self.stepper_step => "stepper_step"
  end.

(** The callbacks a handler may hand to the core. *)
Definition subscribes (cmd : Self.method) : list callback :=
  match cmd with
  | Self.encoder_config => [cb_encoder_callback]
  | Self.i2c_read_request => [cb_i2c_read_request_callback]
  | Self.set_analog_latch => [cb_analog_latch_callback]
  | Self.set_digital_latch => [cb_digital_latch_callback]
  | Self.set_pin_mode => [cb_digital_callback; cb_analog_callback]
  | Self.sonar_config => [cb_sonar_callback]
  | _ => []
  end.

(** What one call of a handler may append to the trace, by outcome. *)
Definition one_step (o : outcome unit) (suf : trace) : Prop :=
  match o with
  | Ok _ =>
      (exists c, suf = [Call c]) \/
      (exists c m, suf = [Call c; SendMessage m]) \/
      (exists c, suf = [Call c; Sleep 1])
  | Raise _ => suf = [] \/ (exists c, suf = [Call c])
  end.

(** ** Commands with integer params *)

(** The commands whose params are a flat sequence of integers, as their
    docstrings give them. *)
Inductive numeric_command : Type :=
| N_analog_read (pin : Z)
| N_analog_write (pin value : Z)
| N_digital_read (pin : Z)
| N_digital_write (pin value : Z)
| N_disable_analog_reporting (pin : Z)
| N_disable_digital_reporting (pin : Z)
| N_encoder_config (pin_a pin_b : Z)
| N_encoder_read (pin : Z)
| N_get_analog_latch_data (pin : Z)
| N_get_digital_latch_data (pin : Z)
| N_get_pin_state (pin : Z)
| N_i2c_config (delay : Z)
| N_i2c_read_data (address : Z)
| N_set_analog_latch (pin threshold_type threshold_value : Z)
| N_set_digital_latch (pin threshold_value : Z)
| N_set_sampling_interval (interval : Z)
| N_sonar_config (trigger echo interval max_distance : Z)
| N_sonar_read (trigger : Z)
| N_servo_config (pin min_pulse max_pulse : Z)
| N_stepper_step (speed steps : Z).

(** Its method name on the wire. *)
Definition numeric_method (w : numeric_command) : string :=
  match w with
  | N_analog_read _ => "analog_read"
  | N_analog_write _ _ => "analog_write"
  | N_digital_read _ => "digital_read"
  | N_digital_write _ _ => "digital_write"
  | N_disable_analog_reporting _ => "disable_analog_reporting"
  | N_disable_digital_reporting _ => "disable_digital_reporting"
  | N_encoder_config _ _ => "encoder_config"
  | N_encoder_read _ => "encoder_read"
  | N_get_analog_latch_data _ => "get_analog_latch_data"
  | N_get_digital_latch_data _ => "get_digital_latch_data"
  | N_get_pin_state _ => "get_pin_state"
  | N_i2c_config _ => "i2c_config"
  | N_i2c_read_data _ => "i2c_read_data"
  | N_set_analog_latch _ _ _ => "set_analog_latch"
  | N_set_digital_latch _ _ => "set_digital_latch"
  | N_set_sampling_interval _ => "set_sampling_interval"
  | N_sonar_config _ _ _ _ => "sonar_config"
  | N_sonar_read _ => "sonar_read"
  | N_servo_config _ _ _ => "servo_config"
  | N_stepper_step _ _ => "stepper_step"
  end.

(** Its params, in wire order. *)
Definition numeric_params (w : numeric_command) : list Z :=
  match w with
  | N_analog_read pin => [pin]
  | N_analog_write pin value => [pin; value]
  | N_digital_read pin => [pin]
  | N_digital_write pin value => [pin; value]
  | N_disable_analog_reporting pin => [pin]
  | N_disable_digital_reporting pin => [pin]
  | N_encoder_config pin_a pin_b => [pin_a; pin_b]
  | N_encoder_read pin => [pin]
  | N_get_analog_latch_data pin => [pin]
  | N_get_digital_latch_data pin => [pin]
  | N_get_pin_state pin => [pin]
  | N_i2c_config delay => [delay]
  | N_i2c_read_data address => [address]
  | N_set_analog_latch pin threshold_type threshold_value =>
      [pin; threshold_type; threshold_value]
  | N_set_digital_latch pin threshold_value => [pin; threshold_value]
  | N_set_sampling_interval interval => [interval]
  | N_sonar_config trigger echo interval max_distance =>
      [trigger; echo; interval; max_distance]
  | N_sonar_read trigger => [trigger]
  | N_servo_config pin min_pulse max_pulse => [pin; min_pulse; max_pulse]
  | N_stepper_step speed steps => [speed; steps]
  end.

(** The core call it stands for. *)
Definition numeric_call (w : numeric_command) : Core.call :=
  match w with
  | N_analog_read pin => Core.analog_read pin
  | N_analog_write pin value => Core.analog_write pin value
  | N_digital_read pin => Core.digital_read pin
  | N_digital_write pin value => Core.digital_write pin value
  | N_disable_analog_reporting pin => Core.disable_analog_reporting pin
  | N_disable_digital_reporting pin => Core.disable_digital_reporting pin
  | N_encoder_config pin_a pin_b =>
      Core.encoder_config pin_a pin_b cb_encoder_callback
  | N_encoder_read pin => Core.encoder_read pin
  | N_get_analog_latch_data pin => Core.get_analog_latch_data pin
  | N_get_digital_latch_data pin => Core.get_digital_latch_data pin
  | N_get_pin_state pin => Core.get_pin_state pin
  | N_i2c_config delay => Core.i2c_config delay
  | N_i2c_read_data address => Core.i2c_read_data address
  | N_set_analog_latch pin threshold_type threshold_value =>
      Core.set_analog_latch pin threshold_type threshold_value
        cb_analog_latch_callback
  | N_set_digital_latch pin threshold_value =>
      Core.set_digital_latch pin threshold_value cb_digital_latch_callback
  | N_set_sampling_interval interval => Core.set_sampling_interval interval
  | N_sonar_config trigger echo interval max_distance =>
      Core.sonar_config trigger echo cb_sonar_callback interval max_distance
  | N_sonar_read trigger => Core.sonar_data_retrieve trigger
  | N_servo_config pin min_pulse max_pulse =>
      Core.servo_config pin min_pulse max_pulse
  | N_stepper_step speed steps => Core.stepper_step speed steps
  end.

(** The message a client sends for it: every integer as its decimal
    string. *)
Definition numeric_message (w : numeric_command) : pyval :=
  message (numeric_method w)
    (PList (List.map (fun n => PStr (pretty n)) (numeric_params w))).

(** * Properties *)

(** ** The builtins on sample values *)

Example int_of_str_ex1 : Py.int (PStr "13") = Ok 13.
Proof. reflexivity. Qed.
Example int_of_str_ex2 : Py.int (PStr " -1_000 ") = Ok (-1000).
Proof. reflexivity. Qed.
Example int_of_str_ex3 : Py.int (PStr "null") = Raise ValueError.
Proof. reflexivity. Qed.
Example int_of_str_ex4 : Py.int (PStr "1__0") = Raise ValueError.
Proof. reflexivity. Qed.
Example int_of_str_ex5 : Py.int (PFloat (FDyadic (-5) (-1))) = Ok (-2).
Proof. reflexivity. Qed.
Example int_of_str_ex6 :
  Py.int (PStr (String (ascii_of_nat 28) "5")) = Raise ValueError.
Proof. reflexivity. Qed.
Example int_of_str_ex7 :
  Py.int (PStr (String (ascii_of_nat 160) "5")) = Ok 5.
Proof. reflexivity. Qed.

Example strftime_ex :
  strftime {| year := 2015; month := 11; day := 4;
              hour := 9; minute := 3; second := 20 |}
  = "2015-11-04 09:03:20"%string.
Proof. reflexivity. Qed.

(** The sample host on the edges of the range of [datetime]. *)
Example utc_fromtimestamp_ex :
  List.map rendered
    [PInt 0; PInt 1446647000; PBool true;
     PInt (-30610224001); PInt (-62135510400); PInt (-62135510401);
     PInt 253402300799; PInt 253402300800;
     PInt (2 ^ 63 - 1); PInt (2 ^ 63);
     PFloat (FDyadic 2893294001 (-1)); PFloat (FDyadic (-1) (-1));
     PFloat (FDyadic 9007197453301141 (-52));
     PFloat (FDyadic 4503598501470589 (-51));
     PFloat FNaN; PFloat (FInf false); PNone; PStr "5"]
  = [Ok "1970-01-01 00:00:00"; Ok "2015-11-04 14:23:20";
     Ok "1970-01-01 00:00:01";
     Ok "999-12-31 23:59:59"; Ok "1-01-02 00:00:00"; Raise ValueError;
     Ok "9999-12-31 23:59:59"; Raise ValueError;
     Raise (OtherError "OSError"); Raise OverflowError;
     Ok "2015-11-04 14:23:20"; Ok "1969-12-31 23:59:59";
     Ok "1970-01-01 00:00:02"; Ok "1970-01-01 00:00:01";
     Raise ValueError; Raise OverflowError; Raise TypeError;
     Raise TypeError]%string.
Proof. vm_compute. reflexivity. Qed.

(** ** Running the dispatcher *)

Lemma int_ok_not_null (v : pyval) (n : Z) :
  Py.int v = Ok n -> Py.eq_str v "null" = false.
Proof.
  destruct v as [| | | |s| | |]; try reflexivity.
  simpl. destruct (String.eqb_spec s "null") as [->|]; [|reflexivity].
  discriminate.
Qed.

Lemma eq_str_false_iff (v : pyval) (s : string) :
  Py.eq_str v s = false <-> v <> PStr s.
Proof.
  destruct v as [| | | |t| | |]; simpl; try (split; [discriminate|reflexivity]).
  destruct (String.eqb_spec t s) as [->|Hne]; split; try congruence.
Qed.

(** A text message that names a handler of the table: the first element of
    [params] is read, then the handler is called with or without [params]. *)
Lemma onMessage_known K core payload d name cmd tr :
  json_loads payload = Ok (PDict d) ->
  Py.dict_get d "method" = Some (PStr name) ->
  command_map !! name = Some cmd ->
  onMessage K core payload false tr =
    let params := default PNone (Py.dict_get d "params") in
    match Py.getitem params 0 with
    | Ok first =>
        if negb (Py.eq_str first "null")
        then invoke K core cmd [params] tr
        else invoke K core cmd [] tr
    | Raise e => (Raise e, tr)
    end.
Proof.
  intros Hdoc Hmethod Hcmd.
  unfold onMessage, item, bind, lift. rewrite Hdoc. cbn [Py.get].
  rewrite Hmethod. cbn [from_option id command_map_contains command_map_get].
  rewrite Hcmd, bool_decide_eq_true_2 by eauto.
  cbv zeta. destruct (Py.getitem _ 0); [|reflexivity].
  destruct (negb _); reflexivity.
Qed.

(** On the text path only the decoded document matters. *)
Lemma onMessage_text K core payload doc tr :
  json_loads payload = Ok doc ->
  onMessage K core payload false tr = onMessage K core (text doc) false tr.
Proof.
  intros Hdoc. unfold onMessage, bind, lift. rewrite Hdoc. reflexivity.
Qed.

Lemma onMessage_unknown K core payload d name tr :
  json_loads payload = Ok (PDict d) ->
  Py.dict_get d "method" = Some (PStr name) ->
  command_map !! name = None ->
  onMessage K core payload false tr = (Ok tt, tr).
Proof.
  intros Hdoc Hmethod Hcmd.
  unfold onMessage, bind, lift. rewrite Hdoc. cbn [Py.get].
  rewrite Hmethod. cbn [from_option id command_map_contains].
  rewrite Hcmd, bool_decide_eq_false_2; [reflexivity|].
  intros [? ?]; discriminate.
Qed.

Ltac run_handler :=
  cbn [invoke with_command without_command call_cmd snd];
  unfold analog_read, digital_read, encoder_read, sonar_read, i2c_read_data,
    get_analog_latch_data, get_digital_latch_data, get_pinstate_report,
    get_analog_map, get_capability_report, get_firmware_version,
    get_protocol_version, get_pymata_version,
    disable_analog_reporting, disable_digital_reporting,
    enable_analog_reporting, enable_digital_reporting, i2c_read_request,
    onClose, print, sendMessage, json_dumps, int_at, item, await, emit,
    bind, lift, ret, raise.

(** ** Dispatch of the reporting commands *)

Lemma command_map_elem name cmd :
  command_map !! name = Some cmd ->
  (name, cmd) ∈ map_to_list command_map.
Proof. intros H. apply elem_of_map_to_list. exact H. Qed.

(** C1 (the code departs from the claim).  The table stores the disable
    handlers under the two enable names: the command
    [{"method": "enable_analog_reporting", "params": ["3"]}] makes the single
    core call [disable_analog_reporting(3)], and
    [{"method": "enable_digital_reporting", "params": ["3"]}] the single call
    [disable_digital_reporting(3)].  The handlers [enable_analog_reporting]
    and [enable_digital_reporting] of the class, which call the enable
    operations, are stored under no name of the table. *)
Theorem enable_reporting_dispatches_disable K core tr :
  command_map !! "enable_analog_reporting"%string
    = Some Self.disable_analog_reporting /\
  command_map !! "enable_digital_reporting"%string
    = Some Self.disable_digital_reporting /\
  snd (onMessage K core
         (text (message "enable_analog_reporting" (PList [PStr "3"])))
         false tr)
    = tr ++ [Call (Core.disable_analog_reporting 3)] /\
  snd (onMessage K core
         (text (message "enable_digital_reporting" (PList [PStr "3"])))
         false tr)
    = tr ++ [Call (Core.disable_digital_reporting 3)] /\
  snd (enable_analog_reporting core (PList [PStr "3"]) tr)
    = tr ++ [Call (Core.enable_analog_reporting 3)] /\
  snd (enable_digital_reporting core (PList [PStr "3"]) tr)
    = tr ++ [Call (Core.enable_digital_reporting 3)] /\
  (forall name,
     command_map !! name <> Some Self.enable_analog_reporting /\
     command_map !! name <> Some Self.enable_digital_reporting).
Proof.
  split; [reflexivity|]. split; [reflexivity|].
  split; [|split; [|split; [|split]]].
  - erewrite onMessage_known by reflexivity.
    cbn -[invoke]. run_handler.
    change (obind (Py.getitem (PList [PStr "3"]) 0) Py.int) with (Ok 3).
    cbv beta iota.
    destruct (core tr _); reflexivity.
  - erewrite onMessage_known by reflexivity.
    cbn -[invoke]. run_handler.
    change (obind (Py.getitem (PList [PStr "3"]) 0) Py.int) with (Ok 3).
    cbv beta iota.
    destruct (core tr _); reflexivity.
  - run_handler.
    change (obind (Py.getitem (PList [PStr "3"]) 0) Py.int) with (Ok 3).
    cbv beta iota.
    destruct (core tr _); reflexivity.
  - run_handler.
    change (obind (Py.getitem (PList [PStr "3"]) 0) Py.int) with (Ok 3).
    cbv beta iota.
    destruct (core tr _); reflexivity.
  - intros name; split; intros H; apply command_map_elem in H;
      vm_compute in H;
      repeat (apply elem_of_cons in H as [H|H]; [discriminate H|]);
      inversion H.
Qed.

(** ** Unknown methods *)

(** C3.  A text message whose method name is not a key of the dispatch
    table is ignored: [onMessage] returns normally and the trace is
    unchanged, so no message is sent, no core operation is called, and
    nothing happens to the connection. *)
Theorem unknown_method_is_ignored K core payload d name tr :
  json_loads payload = Ok (PDict d) ->
  Py.dict_get d "method" = Some (PStr name) ->
  command_map !! name = None ->
  onMessage K core payload false tr = (Ok tt, tr) /\
  sent (snd (onMessage K core payload false tr)) = sent tr /\
  calls (snd (onMessage K core payload false tr)) = calls tr.
Proof.
  intros Hdoc Hmethod Hcmd.
  rewrite (onMessage_unknown K core payload d name tr Hdoc Hmethod Hcmd).
  repeat split.
Qed.

Lemma unknown_method_is_ignored_witness :
  onMessage firmata_constants bench_core
    (text (message "reboot" (PList [PStr "1"]))) false [] = (Ok tt, []) /\
  sent (snd (onMessage firmata_constants bench_core
    (text (message "reboot" (PList [PStr "1"]))) false [])) = sent [] /\
  calls (snd (onMessage firmata_constants bench_core
    (text (message "reboot" (PList [PStr "1"]))) false [])) = calls [].
Proof.
  apply (unknown_method_is_ignored firmata_constants bench_core
           (text (message "reboot" (PList [PStr "1"])))
           [("method"%string, PStr "reboot");
            ("params"%string, PList [PStr "1"])] "reboot" []);
    reflexivity.
Defined.

(** ** The analog read scenario *)

(** C7.  The command [{"method": "analog_read", "params": ["2"]}], when the
    core resolves [analog_read(2)] to 512, calls the core once and sends
    exactly one message,
    [{"method": "analog_read_reply", "params": [2, 512]}]. *)
Theorem analog_read_scenario K core tr :
  core tr (Core.analog_read 2) = Ok (PInt 512) ->
  onMessage K core (text (message "analog_read" (PList [PStr "2"]))) false tr
  = (Ok tt,
     tr ++ [Call (Core.analog_read 2)]
        ++ [SendMessage
              (message "analog_read_reply" (PList [PInt 2; PInt 512]))]).
Proof.
  intros Hcore.
  erewrite onMessage_known by reflexivity.
  cbn -[invoke]. run_handler.
  change (obind (Py.getitem (PList [PStr "2"]) 0) Py.int) with (Ok 2).
  cbv beta iota.
  rewrite Hcore. cbn. rewrite <- app_assoc. reflexivity.
Qed.

Lemma analog_read_scenario_witness :
  onMessage firmata_constants bench_core
    (text (message "analog_read" (PList [PStr "2"]))) false []
  = (Ok tt,
     [Call (Core.analog_read 2);
      SendMessage (message "analog_read_reply" (PList [PInt 2; PInt 512]))]).
Proof.
  apply (analog_read_scenario firmata_constants bench_core []).
  reflexivity.
Defined.

(** ** Closing *)

(** C8.  One [onClose] event prints the status line and calls the core's
    [shutdown] exactly once, whatever the close arguments and whatever the
    call resolves to. *)
Theorem onClose_shuts_down_once core was_clean code reason tr :
  snd (onClose core was_clean code reason tr)
  = tr ++ [Stdout ("WebSocket connection closed: " +:+ reason_str reason);
           Call Core.shutdown] /\
  calls (snd (onClose core was_clean code reason tr))
  = calls tr ++ [Core.shutdown].
Proof.
  assert (Htr : snd (onClose core was_clean code reason tr)
    = tr ++ [Stdout ("WebSocket connection closed: " +:+ reason_str reason);
             Call Core.shutdown]).
  { run_handler. cbn. destruct (core _ _); cbn; rewrite <- app_assoc;
      reflexivity. }
  split; [exact Htr|].
  rewrite Htr. unfold calls. rewrite omap_app. reflexivity.
Qed.

(** ** The read of [params[0]] *)

(** C10.  For a text message that names a handler of the table, [onMessage]
    evaluates [params[0]] before the handler is called.  With the [params]
    field missing the read raises [TypeError]; with an empty sequence it
    raises [IndexError]; whenever the read raises, [onMessage] raises the same
    exception with the trace unchanged: the handler is not called and the
    message is not ignored. *)
Theorem known_method_reads_first_param K core payload d name tr :
  json_loads payload = Ok (PDict d) ->
  Py.dict_get d "method" = Some (PStr name) ->
  is_Some (command_map !! name) ->
  (Py.dict_get d "params" = None ->
   onMessage K core payload false tr = (Raise TypeError, tr)) /\
  (Py.dict_get d "params" = Some (PList []) ->
   onMessage K core payload false tr = (Raise IndexError, tr)) /\
  (forall params e,
     Py.get (PDict d) "params" = Ok params ->
     Py.getitem params 0 = Raise e ->
     onMessage K core payload false tr = (Raise e, tr)).
Proof.
  intros Hdoc Hmethod [cmd Hcmd].
  pose proof (onMessage_known K core payload d name cmd tr Hdoc Hmethod Hcmd)
    as Hrun.
  cbv zeta in Hrun. split; [|split].
  - intros Hp. rewrite Hrun, Hp. reflexivity.
  - intros Hp. rewrite Hrun, Hp. reflexivity.
  - intros params e Hp Hfirst. cbn in Hp. injection Hp as Hp.
    rewrite Hrun, Hp, Hfirst. reflexivity.
Qed.

Lemma known_method_reads_first_param_witness :
  onMessage firmata_constants bench_core
    (text (PDict [("method"%string, PStr "analog_read")])) false []
  = (Raise TypeError, []) /\
  onMessage firmata_constants bench_core
    (text (message "analog_read" (PList []))) false []
  = (Raise IndexError, []).
Proof.
  split.
  - apply (known_method_reads_first_param firmata_constants bench_core
             (text (PDict [("method"%string, PStr "analog_read")]))
             [("method"%string, PStr "analog_read")] "analog_read" []);
      [reflexivity | reflexivity | exists Self.analog_read; reflexivity
      | reflexivity].
  - apply (known_method_reads_first_param firmata_constants bench_core
             (text (message "analog_read" (PList [])))
             [("method"%string, PStr "analog_read");
              ("params"%string, PList [])] "analog_read" []);
      [reflexivity | reflexivity | exists Self.analog_read; reflexivity
      | reflexivity].
Defined.

(** ** The I2C read type *)



(** ** The "null" sentinel *)

(** C6, the claim as stated fails.  For [get_firmware_version] with params
    [["null", "x"]], which is not the single-element sentinel, the handler is
    still called with no argument (and replies); calling it with the params
    sequence would raise instead. *)
Lemma null_then_extra_params_counterexample :
  [PStr "null"; PStr "x"] <> [PStr "null"] /\
  command_map !! "get_firmware_version"%string
    = Some Self.get_firmware_version /\
  onMessage firmata_constants bench_core
    (text (message "get_firmware_version" (PList [PStr "null"; PStr "x"])))
    false []
  = invoke firmata_constants bench_core Self.get_firmware_version [] [] /\
  onMessage firmata_constants bench_core
    (text (message "get_firmware_version" (PList [PStr "null"; PStr "x"])))
    false []
  <> invoke firmata_constants bench_core Self.get_firmware_version
       [PList [PStr "null"; PStr "x"]] [].
Proof.
  split; [discriminate|]. split; [reflexivity|].
  split; [reflexivity|]. vm_compute. discriminate.
Qed.

(** C6, amended.  For a recognized command whose params sequence has a first
    element, the handler is called with no argument when that first element
    is the string "null" (so in particular for the sentinel [["null"]]), and
    with the params sequence as its single argument otherwise; the sentinel
    form of [get_firmware_version] runs the zero-argument handler. *)
Theorem null_first_param_selects_arity K core payload d name cmd first rest tr :
  json_loads payload = Ok (PDict d) ->
  Py.dict_get d "method" = Some (PStr name) ->
  command_map !! name = Some cmd ->
  Py.dict_get d "params" = Some (PList (first :: rest)) ->
  (first = PStr "null" ->
   onMessage K core payload false tr = invoke K core cmd [] tr) /\
  (first <> PStr "null" ->
   onMessage K core payload false tr
   = invoke K core cmd [PList (first :: rest)] tr) /\
  onMessage K core
    (text (message "get_firmware_version" (PList [PStr "null"]))) false tr
  = get_firmware_version core tr.
Proof.
  intros Hdoc Hmethod Hcmd Hparams.
  pose proof (onMessage_known K core payload d name cmd tr Hdoc Hmethod Hcmd)
    as Hrun.
  cbv zeta in Hrun. rewrite Hparams in Hrun. cbn in Hrun.
  split; [|split].
  - intros ->. exact Hrun.
  - intros Hne. apply eq_str_false_iff in Hne. rewrite Hne in Hrun.
    exact Hrun.
  - erewrite onMessage_known by reflexivity. reflexivity.
Qed.

Lemma null_first_param_selects_arity_witness :
  onMessage firmata_constants bench_core
    (text (message "get_firmware_version" (PList [PStr "null"]))) false []
  = invoke firmata_constants bench_core Self.get_firmware_version [] [] /\
  onMessage firmata_constants bench_core
    (text (message "analog_read" (PList [PStr "2"]))) false []
  = invoke firmata_constants bench_core Self.analog_read
      [PList [PStr "2"]] [].
Proof.
  split.
  - apply (null_first_param_selects_arity firmata_constants bench_core
             (text (message "get_firmware_version" (PList [PStr "null"])))
             [("method"%string, PStr "get_firmware_version");
              ("params"%string, PList [PStr "null"])]
             "get_firmware_version" Self.get_firmware_version
             (PStr "null") [] []); reflexivity.
  - apply (null_first_param_selects_arity firmata_constants bench_core
             (text (message "analog_read" (PList [PStr "2"])))
             [("method"%string, PStr "analog_read");
              ("params"%string, PList [PStr "2"])]
             "analog_read" Self.analog_read (PStr "2") [] []);
      [reflexivity | reflexivity | reflexivity | reflexivity | discriminate].
Defined.

(** ** Latch records *)

Lemma falsy_encodable (v : pyval) :
  Py.truthy v = false -> Py.encodable v = true.
Proof.
  destruct v as [| | | | |l|d|]; try reflexivity; try discriminate.
  - destruct l; [reflexivity|discriminate].
  - destruct d; [reflexivity|discriminate].
Qed.

Lemma nonempty_truthy (l : list pyval) : l <> [] -> Py.truthy (PList l) = true.
Proof. destruct l; [congruence|reflexivity]. Qed.

(** C9.  [get_analog_latch_data] and [get_digital_latch_data] send one reply
    in both cases: for a non-empty latch record the params are the pin
    followed by the record without its last element; for an absent (falsy)
    record the params are the pin followed by the value as it came. *)
Theorem latch_data_reply_strips_last core token pin tr :
  Py.int token = Ok pin ->
  (forall record,
     core tr (Core.get_analog_latch_data pin) = Ok (PList record) ->
     record <> [] ->
     Py.encodable (PList (removelast record)) = true ->
     get_analog_latch_data core (PList [token]) tr
     = (Ok tt,
        tr ++ [Call (Core.get_analog_latch_data pin)]
           ++ [SendMessage (message "get_analog_latch_data_reply"
                 (PList [PInt pin; PList (removelast record)]))])) /\
  (forall v,
     core tr (Core.get_analog_latch_data pin) = Ok v ->
     Py.truthy v = false ->
     get_analog_latch_data core (PList [token]) tr
     = (Ok tt,
        tr ++ [Call (Core.get_analog_latch_data pin)]
           ++ [SendMessage (message "get_analog_latch_data_reply"
                 (PList [PInt pin; v]))])) /\
  (forall record,
     core tr (Core.get_digital_latch_data pin) = Ok (PList record) ->
     record <> [] ->
     Py.encodable (PList (removelast record)) = true ->
     get_digital_latch_data core (PList [token]) tr
     = (Ok tt,
        tr ++ [Call (Core.get_digital_latch_data pin)]
           ++ [SendMessage (message "get_digital_latch_data_reply"
                 (PList [PInt pin; PList (removelast record)]))])) /\
  (forall v,
     core tr (Core.get_digital_latch_data pin) = Ok v ->
     Py.truthy v = false ->
     get_digital_latch_data core (PList [token]) tr
     = (Ok tt,
        tr ++ [Call (Core.get_digital_latch_data pin)]
           ++ [SendMessage (message "get_digital_latch_data_reply"
                 (PList [PInt pin; v]))])).
Proof.
  intros Hpin. split; [|split; [|split]].
  - intros record Hcore Hne Henc. run_handler.
    cbn [Py.getitem nth_error obind]. rewrite Hpin, Hcore.
    rewrite (nonempty_truthy record Hne).
    cbn [Py.slice_0_m1 Py.encodable message forallb snd] in *.
    rewrite Henc. cbn. rewrite <- app_assoc. reflexivity.
  - intros v Hcore Hfalsy. run_handler.
    cbn [Py.getitem nth_error obind]. rewrite Hpin, Hcore, Hfalsy.
    cbn [Py.encodable message forallb snd].
    rewrite (falsy_encodable v Hfalsy). cbn. rewrite <- app_assoc.
    reflexivity.
  - intros record Hcore Hne Henc. run_handler.
    cbn [Py.getitem nth_error obind]. rewrite Hpin, Hcore.
    rewrite (nonempty_truthy record Hne).
    cbn [Py.slice_0_m1 Py.encodable message forallb snd] in *.
    rewrite Henc. cbn. rewrite <- app_assoc. reflexivity.
  - intros v Hcore Hfalsy. run_handler.
    cbn [Py.getitem nth_error obind]. rewrite Hpin, Hcore, Hfalsy.
    cbn [Py.encodable message forallb snd].
    rewrite (falsy_encodable v Hfalsy). cbn. rewrite <- app_assoc.
    reflexivity.
Qed.

Lemma latch_data_reply_strips_last_witness :
  get_analog_latch_data bench_core (PList [PStr "3"]) []
  = (Ok tt,
     [Call (Core.get_analog_latch_data 3);
      SendMessage (message "get_analog_latch_data_reply"
        (PList [PInt 3;
                PList [PInt 1; PInt 0; PInt 500; PInt 512;
                       PInt 1446647000]]))]) /\
  get_digital_latch_data bench_core (PList [PStr "7"]) []
  = (Ok tt,
     [Call (Core.get_digital_latch_data 7);
      SendMessage (message "get_digital_latch_data_reply"
        (PList [PInt 7; PNone]))]).
Proof.
  destruct (latch_data_reply_strips_last bench_core (PStr "3") 3 []
              eq_refl) as (Hrecord & _).
  destruct (latch_data_reply_strips_last bench_core (PStr "7") 7 []
              eq_refl) as (_ & _ & _ & Habsent).
  split.
  - apply (Hrecord [PInt 1; PInt 0; PInt 500; PInt 512; PInt 1446647000;
                    PObject "analog_latch_callback"]);
      [reflexivity | discriminate | reflexivity].
  - apply (Habsent PNone); reflexivity.
Defined.

(** ** Replies to queries the core cannot answer *)

(** C2, the claim as stated fails.  [analog_read] on a pin for which the core
    has no value sends one reply whose params are [[5, None]]: neither
    "Unknown" nor "None" stands in for the value. *)
Lemma analog_read_absent_value_counterexample :
  bench_core [] (Core.analog_read 5) = Ok PNone /\
  Py.truthy PNone = false /\
  sent (snd (onMessage firmata_constants bench_core
               (text (message "analog_read" (PList [PStr "5"]))) false []))
  = [message "analog_read_reply" (PList [PInt 5; PNone])] /\
  ~ (exists name,
       sent (snd (onMessage firmata_constants bench_core
                    (text (message "analog_read" (PList [PStr "5"])))
                    false []))
       = [message name (PStr "Unknown")] \/
       sent (snd (onMessage firmata_constants bench_core
                    (text (message "analog_read" (PList [PStr "5"])))
                    false []))
       = [message name (PStr "None")]).
Proof.
  split; [reflexivity|]. split; [reflexivity|].
  split; [reflexivity|].
  intros [name [H|H]]; vm_compute in H; discriminate H.
Qed.

(** C2, amended.  For every query command, when the awaited core operation
    resolves to a falsy value the handler still sends exactly one reply.  Its
    params are the string "Unknown" for get_firmware_version, get_pin_state,
    get_protocol_version and get_pymata_version, the string "None" for
    get_analog_map and get_capability_report, the pin followed by the falsy
    value unchanged for analog_read, digital_read, encoder_read, sonar_read,
    get_analog_latch_data and get_digital_latch_data, and the falsy value
    itself for i2c_read_data. *)
Theorem falsy_result_still_replies K core q token pin v tr :
  Py.int token = Ok pin ->
  core tr (query_call q pin) = Ok v ->
  Py.truthy v = false ->
  onMessage K core
    (text (message (query_method q) (query_params q token))) false tr
  = (Ok tt,
     tr ++ [Call (query_call q pin)] ++ [SendMessage (falsy_reply q pin v)]) /\
  sent (snd (onMessage K core
    (text (message (query_method q) (query_params q token))) false tr))
  = sent tr ++ [falsy_reply q pin v].
Proof.
  intros Hpin Hcore Hfalsy.
  pose proof (int_ok_not_null token pin Hpin) as Hnull.
  pose proof (falsy_encodable v Hfalsy) as Henc.
  assert (Hrun : onMessage K core
    (text (message (query_method q) (query_params q token))) false tr
    = (Ok tt,
       tr ++ [Call (query_call q pin)]
          ++ [SendMessage (falsy_reply q pin v)])).
  { destruct q;
      (erewrite onMessage_known by reflexivity);
      cbn [query_method query_params query_call falsy_reply message
           Py.dict_get String.eqb Ascii.eqb Bool.eqb from_option id
           Py.getitem nth_error Py.eq_str negb] in *;
      try rewrite Hnull; cbn [negb];
      run_handler; cbn [Py.getitem nth_error obind];
      try rewrite Hpin; rewrite Hcore; try rewrite Hfalsy;
      cbn [Py.encodable message forallb snd andb];
      rewrite ?Henc; cbn; rewrite <- app_assoc; reflexivity. }
  split; [exact Hrun|].
  rewrite Hrun. unfold sent. cbn [snd]. rewrite !omap_app. reflexivity.
Qed.

Lemma falsy_result_still_replies_witness :
  onMessage firmata_constants bench_core
    (text (message "get_firmware_version" (PList [PStr "null"]))) false []
  = (Ok tt,
     [Call Core.get_firmware_version;
      SendMessage (message "firmware_version_reply" (PStr "Unknown"))]) /\
  onMessage firmata_constants bench_core
    (text (message "analog_read" (PList [PStr "5"]))) false []
  = (Ok tt,
     [Call (Core.analog_read 5);
      SendMessage (message "analog_read_reply" (PList [PInt 5; PNone]))]).
Proof.
  split.
  - apply (falsy_result_still_replies firmata_constants bench_core
             Q_get_firmware_version (PStr "0") 0 PNone []); reflexivity.
  - apply (falsy_result_still_replies firmata_constants bench_core
             Q_analog_read (PStr "5") 5 PNone []); reflexivity.
Defined.

(** ** Latch notifications *)

Lemma N_of_digit_char (d : Z) :
  N_of_ascii (digit_char d) = (48 + Z.to_N (d mod 10))%N.
Proof.
  unfold digit_char. apply N_ascii_embedding.
  pose proof (Z.mod_pos_bound d 10 ltac:(lia)). lia.
Qed.

Lemma is_digit_digit_char (d : Z) : Py.is_digit (digit_char d) = true.
Proof.
  unfold Py.is_digit. rewrite N_of_digit_char.
  pose proof (Z.mod_pos_bound d 10 ltac:(lia)).
  apply andb_true_intro; split; apply N.leb_le; lia.
Qed.

Lemma digit_val_digit_char (d : Z) : Py.digit_val (digit_char d) = d mod 10.
Proof.
  unfold Py.digit_val. rewrite N_of_digit_char.
  pose proof (Z.mod_pos_bound d 10 ltac:(lia)). lia.
Qed.

Lemma digits_pad2 (n : Z) :
  0 <= n <= 99 ->
  Py.digits [digit_char (n / 10); digit_char n] = Some n.
Proof.
  intros Hn. unfold Py.digits, Py.digits_go.
  rewrite !is_digit_digit_char, !digit_val_digit_char.
  f_equal. Z.to_euclidean_division_equations. lia.
Qed.

Lemma digits_pad4 (n : Z) :
  0 <= n <= 9999 ->
  Py.digits [digit_char (n / 1000); digit_char (n / 100);
             digit_char (n / 10); digit_char n] = Some n.
Proof.
  intros Hn. unfold Py.digits, Py.digits_go.
  rewrite !is_digit_digit_char, !digit_val_digit_char.
  f_equal. Z.to_euclidean_division_equations. lia.
Qed.

Lemma pretty_N_char_digit_char (x : N) :
  pretty_N_char (x `mod` 10) = digit_char (Z.of_N x).
Proof.
  unfold digit_char. change 10 with (Z.of_N 10).
  rewrite <- N2Z.inj_mod, N2Z.id.
  assert (Hd : (x `mod` 10 < 10)%N) by (apply N.mod_lt; discriminate).
  revert Hd. generalize (x `mod` 10)%N. intros d Hd.
  assert (d = 0 \/ d = 1 \/ d = 2 \/ d = 3 \/ d = 4 \/ d = 5 \/ d = 6
          \/ d = 7 \/ d = 8 \/ d = 9)%N as Hcases by lia.
  repeat (destruct Hcases as [->|Hcases]; [reflexivity|]).
  subst d. reflexivity.
Qed.

(** A year of four digits is written as those four digits. *)
Lemma pretty_four_digits (y : Z) :
  1000 <= y <= 9999 -> pretty y = pad4 y EmptyString.
Proof.
  intros Hy. destruct y as [|p|p]; try lia.
  change (pretty (Z.pos p)) with (pretty (N.pos p)).
  unfold pretty, pretty_N.
  destruct (decide (N.pos p = 0%N)) as [Hp|_]; [discriminate Hp|].
  assert (H0 : (0 < N.pos p)%N) by lia.
  assert (H1 : (0 < N.pos p / 10)%N)
    by (zify; Z.to_euclidean_division_equations; lia).
  assert (H2 : (0 < N.pos p / 10 / 10)%N)
    by (zify; Z.to_euclidean_division_equations; lia).
  assert (H3 : (0 < N.pos p / 10 / 10 / 10)%N)
    by (zify; Z.to_euclidean_division_equations; lia).
  assert (H4 : (N.pos p / 10 / 10 / 10 / 10 = 0)%N)
    by (zify; Z.to_euclidean_division_equations; lia).
  rewrite (pretty_N_go_step _ _ H0), (pretty_N_go_step _ _ H1),
    (pretty_N_go_step _ _ H2), (pretty_N_go_step _ _ H3), H4,
    pretty_N_go_0.
  rewrite !pretty_N_char_digit_char. unfold pad4, pad2.
  assert (E1 : Z.of_N (N.pos p / 10) = Z.pos p / 10)
    by (zify; Z.to_euclidean_division_equations; lia).
  assert (E2 : Z.of_N (N.pos p / 10 / 10) = Z.pos p / 100)
    by (zify; Z.to_euclidean_division_equations; lia).
  assert (E3 : Z.of_N (N.pos p / 10 / 10 / 10) = Z.pos p / 1000)
    by (zify; Z.to_euclidean_division_equations; lia).
  rewrite E1, E2, E3. reflexivity.
Qed.

(** The text of [strftime] for a year of four digits: nineteen characters,
    the separators of YYYY-MM-DD HH:MM:SS in place, and each field reading
    back as the component of the datetime. *)
Lemma strftime_fixed_format (dt : datetime) :
  datetime_ok dt ->
  1000 <= year dt ->
  String.length (strftime dt) = 19%nat /\
  String.get 4 (strftime dt) = Some "-"%char /\
  String.get 7 (strftime dt) = Some "-"%char /\
  String.get 10 (strftime dt) = Some " "%char /\
  String.get 13 (strftime dt) = Some ":"%char /\
  String.get 16 (strftime dt) = Some ":"%char /\
  read_field (strftime dt) 0 4 = Some (year dt) /\
  read_field (strftime dt) 5 2 = Some (month dt) /\
  read_field (strftime dt) 8 2 = Some (day dt) /\
  read_field (strftime dt) 11 2 = Some (hour dt) /\
  read_field (strftime dt) 14 2 = Some (minute dt) /\
  read_field (strftime dt) 17 2 = Some (second dt).
Proof.
  intros (Hy & Hmo & Hd & Hh & Hmi & Hs) Hy4.
  unfold strftime. rewrite pretty_four_digits by lia.
  unfold pad4, pad2. cbv [String.append].
  repeat (split; [reflexivity|]).
  unfold read_field.
  cbn [String.substring list_ascii_of_string].
  rewrite digits_pad4, !digits_pad2 by lia.
  repeat split.
Qed.

(** C5, the claim as stated fails.  On a host in UTC, a latch event stamped
    one second before the year 1000 is notified with the third field
    "999-12-31 23:59:59": eighteen characters, the year without a leading
    zero, so not in the format YYYY-MM-DD HH:MM:SS; and a latch event whose
    timestamp lies beyond the year 9999 raises [ValueError] in the callback
    and is not notified at all. *)
Lemma latch_timestamp_outside_format_counterexample :
  analog_latch_callback utc_fromtimestamp
    (PList [PInt 2; PInt 512; PInt (-30610224001)]) []
  = (Ok tt,
     [SendMessage (message "analog_latch_data_reply"
        (PList [PInt 2; PInt 512; PStr "999-12-31 23:59:59"]))]) /\
  String.length "999-12-31 23:59:59" = 18%nat /\
  String.get 4 "999-12-31 23:59:59" <> Some "-"%char /\
  digital_latch_callback utc_fromtimestamp
    (PList [PInt 2; PInt 1; PInt 1000000000000]) []
  = (Raise ValueError, []).
Proof.
  split; [vm_compute; reflexivity|]. split; [reflexivity|].
  split; [discriminate|]. vm_compute. reflexivity.
Qed.

(** C5, amended.  A latch callback given the payload [[pin, value, ts]],
    when [datetime.fromtimestamp] converts [ts] to a local datetime whose
    year has four digits (1000 to 9999), sends exactly one notification;
    its third params field is the string rendering of that datetime in the
    format YYYY-MM-DD HH:MM:SS (the text described by
    [strftime_fixed_format]), not the timestamp itself. *)
Theorem latch_callbacks_render_timestamp fromtimestamp pin value ts dt tr :
  fromtimestamp ts = Ok dt ->
  datetime_ok dt ->
  1000 <= year dt ->
  Py.encodable pin = true ->
  Py.encodable value = true ->
  analog_latch_callback fromtimestamp (PList [pin; value; ts]) tr
  = (Ok tt,
     tr ++ [SendMessage (message "analog_latch_data_reply"
              (PList [pin; value; PStr (strftime dt)]))]) /\
  digital_latch_callback fromtimestamp (PList [pin; value; ts]) tr
  = (Ok tt,
     tr ++ [SendMessage (message "digital_latch_data_reply"
              (PList [pin; value; PStr (strftime dt)]))]) /\
  String.length (strftime dt) = 19%nat /\
  String.get 4 (strftime dt) = Some "-"%char /\
  String.get 7 (strftime dt) = Some "-"%char /\
  String.get 10 (strftime dt) = Some " "%char /\
  String.get 13 (strftime dt) = Some ":"%char /\
  String.get 16 (strftime dt) = Some ":"%char /\
  read_field (strftime dt) 0 4 = Some (year dt) /\
  read_field (strftime dt) 5 2 = Some (month dt) /\
  read_field (strftime dt) 8 2 = Some (day dt) /\
  read_field (strftime dt) 11 2 = Some (hour dt) /\
  read_field (strftime dt) 14 2 = Some (minute dt) /\
  read_field (strftime dt) 17 2 = Some (second dt).
Proof.
  intros Hts Hok Hy4 Hpin Hvalue.
  split; [|split; [|exact (strftime_fixed_format dt Hok Hy4)]].
  - unfold analog_latch_callback, sendMessage, json_dumps, item, emit,
      bind, lift, ret, raise.
    cbn [Py.getitem nth_error]. rewrite Hts.
    cbn [Py.encodable message forallb snd]. rewrite Hpin, Hvalue.
    reflexivity.
  - unfold digital_latch_callback, sendMessage, json_dumps, item, emit,
      bind, lift, ret, raise.
    cbn [Py.getitem nth_error]. rewrite Hts.
    cbn [Py.encodable message forallb snd]. rewrite Hpin, Hvalue.
    reflexivity.
Qed.

Lemma latch_callbacks_render_timestamp_witness :
  analog_latch_callback utc_fromtimestamp
    (PList [PInt 2; PInt 512; PInt 1446647000]) []
  = (Ok tt,
     [SendMessage (message "analog_latch_data_reply"
        (PList [PInt 2; PInt 512; PStr "2015-11-04 14:23:20"]))]).
Proof.
  apply (latch_callbacks_render_timestamp utc_fromtimestamp
           (PInt 2) (PInt 512) (PInt 1446647000)
           {| year := 2015; month := 11; day := 4;
              hour := 14; minute := 23; second := 20 |} []);
    [reflexivity | cbv [datetime_ok year month day hour minute second]; lia
    | cbv [year]; lia | reflexivity | reflexivity].
Defined.

(** * Further properties of the dispatcher *)

(** ** A logic for single runs *)

Lemma post_ret {A} (a : A) (Q : outcome A -> trace -> Prop) :
  Q (Ok a) [] -> post (ret a) Q.
Proof. intros H tr. exists (Ok a), []. rewrite app_nil_r. split; done. Qed.

Lemma post_raise {A} (e : exn) (Q : outcome A -> trace -> Prop) :
  Q (Raise e) [] -> post (raise e) Q.
Proof. intros H tr. exists (Raise e), []. rewrite app_nil_r. split; done. Qed.

Lemma post_lift {A} (o : outcome A) (Q : outcome A -> trace -> Prop) :
  Q o [] -> post (lift o) Q.
Proof. intros H tr. exists o, []. rewrite app_nil_r. split; done. Qed.

Lemma post_emit (e : event) (Q : outcome unit -> trace -> Prop) :
  Q (Ok tt) [e] -> post (emit e) Q.
Proof. intros H tr. exists (Ok tt), [e]. split; done. Qed.

Lemma post_await core (c : Core.call) (Q : outcome pyval -> trace -> Prop) :
  (forall o, Q o [Call c]) -> post (await core c) Q.
Proof. intros H tr. exists (core tr c), [Call c]. split; [done|apply H]. Qed.

Lemma post_bind {A B} (m : M A) (k : A -> M B)
    (Q : outcome B -> trace -> Prop) :
  post m (fun o suf =>
            match o with
            | Ok a => post (k a) (fun o' suf' => Q o' (suf ++ suf'))
            | Raise e => Q (Raise e) suf
            end) ->
  post (bind m k) Q.
Proof.
  intros H tr. destruct (H tr) as (o & suf & Hm & HQ).
  unfold bind. rewrite Hm. destruct o as [a|e].
  - destruct (HQ (tr ++ suf)) as (o' & suf' & Hk & HQ').
    exists o', (suf ++ suf'). rewrite Hk, app_assoc. split; done.
  - exists (Raise e), suf. split; done.
Qed.

Lemma post_weaken {A} (m : M A) (P Q : outcome A -> trace -> Prop) :
  post m P -> (forall o suf, P o suf -> Q o suf) -> post m Q.
Proof.
  intros H HPQ tr. destruct (H tr) as (o & suf & Hm & HP).
  exists o, suf. split; [done|auto].
Qed.

Lemma post_run {A} (m : M A) (Q : outcome A -> trace -> Prop) tr :
  post m Q -> exists suf, snd (m tr) = tr ++ suf /\ Q (fst (m tr)) suf.
Proof.
  intros H. destruct (H tr) as (o & suf & Hm & HQ).
  exists suf. rewrite Hm. split; done.
Qed.

Ltac unfold_handlers :=
  unfold analog_read, analog_write, digital_read, digital_write,
    disable_analog_reporting, disable_digital_reporting,
    enable_analog_reporting, enable_digital_reporting,
    encoder_config, encoder_read, get_analog_latch_data, get_analog_map,
    get_capability_report, get_digital_latch_data, get_firmware_version,
    get_pinstate_report, get_protocol_version, get_pymata_version,
    i2c_config, i2c_read_data, i2c_read_request, i2c_write_request,
    play_tone, set_analog_latch, set_digital_latch, set_pin_mode,
    set_sampling_interval, sonar_config, sonar_read, servo_config,
    stepper_config, stepper_step,
    analog_callback, analog_latch_callback, digital_callback,
    digital_latch_callback, encoder_callback, i2c_read_request_callback,
    i2c_read_data_callback, sonar_callback,
    onOpen, onClose, onConnect,
    with_command, without_command, call_cmd,
    sendMessage, print, json_dumps, int_at, item.

(** Walks a handler body, one goal per path through it. *)
Ltac walk :=
  repeat (cbv beta iota zeta;
    lazymatch goal with
    | |- post (bind _ _) _ => apply post_bind
    | |- post (lift _) _ => apply post_lift
    | |- post (ret _) _ => apply post_ret
    | |- post (raise _) _ => apply post_raise
    | |- post (emit _) _ => apply post_emit
    | |- post (await _ _) _ => apply post_await; intros [?|?]
    | |- post (if ?b then _ else _) _ => destruct b eqn:?
    | |- post (match ?x with _ => _ end) _ => destruct x eqn:?
    | |- match ?x with _ => _ end => destruct x eqn:?
    end);
  cbv beta iota zeta; cbn [app].

(** ** The footprint of one command *)

Lemma invoke_post_one_step K core cmd args :
  post (invoke K core cmd args) one_step.
Proof.
  destruct cmd; cbn [invoke]; unfold_handlers; walk; cbn [one_step];
    eauto 6.
Qed.

(** X1.  Whatever the handler and the arguments, one call of a handler
    appends to the trace either nothing, or one core call, or one core call
    followed by one message, or one core call followed by the one-second
    sleep; it returns normally in the last three cases only, and when it
    raises it has sent nothing. *)
Theorem invoke_one_step K core cmd args tr :
  exists o suf,
    invoke K core cmd args tr = (o, tr ++ suf) /\
    match o with
    | Ok _ =>
        (exists c, suf = [Call c]) \/
        (exists c m, suf = [Call c; SendMessage m]) \/
        (exists c, suf = [Call c; Sleep 1])
    | Raise _ => suf = [] \/ (exists c, suf = [Call c])
    end.
Proof. exact (invoke_post_one_step K core cmd args tr). Qed.

Lemma onMessage_post_text K core payload :
  post (onMessage K core payload false)
    (fun o suf => (o = Ok tt /\ suf = []) \/ one_step o suf).
Proof.
  unfold onMessage, item, call_cmd. walk.
  all: first
    [ eapply post_weaken;
      [apply invoke_post_one_step | intros o suf H; right; exact H]
    | left; split; reflexivity
    | right; cbn [one_step]; eauto ].
Qed.

Lemma onMessage_footprint K core payload is_binary tr :
  exists o suf,
    onMessage K core payload is_binary tr = (o, tr ++ suf) /\
    (length (calls suf) <= 1)%nat /\
    (length (sent suf) <= 1)%nat /\
    (forall m, SendMessage m ∈ suf ->
       exists c, suf = [Call c; SendMessage m]) /\
    (forall e, o = Raise e -> sent suf = []).
Proof.
  destruct is_binary.
  - eexists _, _. split.
    { unfold onMessage, print, emit, bind. cbn. rewrite <- app_assoc.
      reflexivity. }
    cbn. repeat split; try lia.
    + intros m Hin. repeat (apply elem_of_cons in Hin as [Hin|Hin];
        [discriminate Hin|]). inversion Hin.
  - destruct (onMessage_post_text K core payload tr)
      as (o & suf & Hrun & Hshape).
    exists o, suf. split; [exact Hrun|].
    destruct Hshape as [[-> ->]|Hshape].
    { cbn. repeat split; try lia; try done. intros m Hin. inversion Hin. }
    destruct o as [[]|e]; cbn in Hshape.
    + destruct Hshape as [(c & ->)|[(c & m & ->)|(c & ->)]]; cbn;
        repeat split; try lia; try done; intros m' Hin;
        repeat (apply elem_of_cons in Hin as [Hin|Hin];
          [try discriminate Hin|]); try (inversion Hin; fail).
      injection Hin as ->. eauto.
    + destruct Hshape as [->|(c & ->)]; cbn;
        repeat split; try lia; try done; intros m' Hin;
        repeat (apply elem_of_cons in Hin as [Hin|Hin];
          [try discriminate Hin|]); inversion Hin.
Qed.

(** X2.  Processing one inbound message, text or binary, makes at most one
    core call and sends at most one message; a message is only ever sent
    right after the core call of the same command, and never when
    [onMessage] raises. *)
Theorem onMessage_one_call_one_message K core payload is_binary tr :
  exists o suf,
    onMessage K core payload is_binary tr = (o, tr ++ suf) /\
    (length (calls suf) <= 1)%nat /\
    (length (sent suf) <= 1)%nat /\
    (forall m, SendMessage m ∈ suf ->
       exists c, suf = [Call c; SendMessage m]) /\
    (forall e, o = Raise e -> sent suf = []).
Proof. exact (onMessage_footprint K core payload is_binary tr). Qed.

Lemma sent_app (tr suf : trace) : sent (tr ++ suf) = sent tr ++ sent suf.
Proof. unfold sent. apply omap_app. Qed.

Lemma calls_app (tr suf : trace) : calls (tr ++ suf) = calls tr ++ calls suf.
Proof. unfold calls. apply omap_app. Qed.

Lemma invoke_post_silent K core cmd args :
  replies cmd = false ->
  post (invoke K core cmd args)
    (fun o suf => sent suf = [] /\ (o = Ok tt -> exists c, calls suf = [c])).
Proof.
  intros Hcmd.
  destruct cmd; try discriminate Hcmd; cbn [invoke]; unfold_handlers; walk;
    cbn; (split; [reflexivity|]); try discriminate; eauto.
Qed.

(** X3.  The commands whose handler has no [sendMessage] (the writes, the
    configuration commands and the subscriptions) never put a message on
    the connection, whatever their params; when the handler returns
    normally exactly one core call was made. *)
Theorem write_commands_never_reply K core payload d name cmd tr :
  json_loads payload = Ok (PDict d) ->
  Py.dict_get d "method" = Some (PStr name) ->
  command_map !! name = Some cmd ->
  replies cmd = false ->
  sent (snd (onMessage K core payload false tr)) = sent tr /\
  (fst (onMessage K core payload false tr) = Ok tt ->
   exists c, calls (snd (onMessage K core payload false tr))
             = calls tr ++ [c]).
Proof.
  intros Hdoc Hmethod Hcmd Hreplies.
  rewrite (onMessage_known K core payload d name cmd tr Hdoc Hmethod Hcmd).
  cbv zeta. destruct (Py.getitem _ 0) as [first|e];
    [|split; [reflexivity|discriminate]].
  destruct (negb _).
  - destruct (invoke_post_silent K core cmd
                [default PNone (Py.dict_get d "params")] Hreplies tr)
      as (o & suf & -> & Hsent & Hcalls).
    cbn [fst snd]. rewrite sent_app, calls_app, Hsent, app_nil_r.
    split; [reflexivity|]. intros ->. destruct Hcalls as [c ->]; eauto.
  - destruct (invoke_post_silent K core cmd [] Hreplies tr)
      as (o & suf & -> & Hsent & Hcalls).
    cbn [fst snd]. rewrite sent_app, calls_app, Hsent, app_nil_r.
    split; [reflexivity|]. intros ->. destruct Hcalls as [c ->]; eauto.
Qed.

Lemma write_commands_never_reply_witness :
  sent (snd (onMessage firmata_constants bench_core
    (text (message "digital_write" (PList [PStr "13"; PStr "1"])))
    false [])) = sent [] /\
  (fst (onMessage firmata_constants bench_core
    (text (message "digital_write" (PList [PStr "13"; PStr "1"])))
    false []) = Ok tt ->
   exists c, calls (snd (onMessage firmata_constants bench_core
    (text (message "digital_write" (PList [PStr "13"; PStr "1"])))
    false [])) = calls [] ++ [c]).
Proof.
  apply (write_commands_never_reply firmata_constants bench_core
           (text (message "digital_write" (PList [PStr "13"; PStr "1"])))
           [("method"%string, PStr "digital_write");
            ("params"%string, PList [PStr "13"; PStr "1"])]
           "digital_write" Self.digital_write []); reflexivity.
Defined.

Lemma invoke_post_query K core cmd args :
  replies cmd = true ->
  post (invoke K core cmd args)
    (fun o suf =>
       o = Ok tt ->
       exists c name params,
         suf = [Call c; SendMessage (message name params)]).
Proof.
  intros Hcmd.
  destruct cmd; try discriminate Hcmd; cbn [invoke]; unfold_handlers; walk;
    try discriminate; intros _; eauto.
Qed.

(** X4.  A query handler that returns normally has made one core call and
    then sent exactly one message, a dict with the two fields [method] and
    [params]. *)
Theorem query_handlers_reply_once K core cmd args tr :
  replies cmd = true ->
  fst (invoke K core cmd args tr) = Ok tt ->
  exists c name params,
    snd (invoke K core cmd args tr)
    = tr ++ [Call c; SendMessage (message name params)].
Proof.
  intros Hcmd Hok.
  destruct (invoke_post_query K core cmd args Hcmd tr)
    as (o & suf & Hrun & Hpost).
  rewrite Hrun in *. cbn [fst snd] in *.
  destruct (Hpost Hok) as (c & name & params & ->). eauto.
Qed.

Lemma query_handlers_reply_once_witness :
  exists c name params,
    snd (invoke firmata_constants bench_core Self.sonar_read
           [PList [PStr "7"]] [])
    = [] ++ [Call c; SendMessage (message name params)].
Proof.
  apply (query_handlers_reply_once firmata_constants bench_core
           Self.sonar_read [PList [PStr "7"]] []); reflexivity.
Defined.

(** ** Which operation a command reaches *)

Lemma invoke_post_operation K core cmd args :
  post (invoke K core cmd args)
    (fun _ suf =>
       forall c, Call c ∈ suf -> operation_name c = handler_operation cmd).
Proof.
  destruct cmd; cbn [invoke]; unfold_handlers; walk;
    intros c Hin;
    repeat (apply elem_of_cons in Hin as [Hin|Hin];
      [first [injection Hin as ->; reflexivity | discriminate Hin]|]);
    inversion Hin.
Qed.

(** X5.  For every method name other than the two enable names, every core
    call made while the message is processed is the [PymataCore] method of
    the same name, except that "sonar_read" reaches [sonar_data_retrieve];
    a name outside the table reaches nothing. *)
Theorem commands_reach_their_operation K core payload d name tr :
  json_loads payload = Ok (PDict d) ->
  Py.dict_get d "method" = Some (PStr name) ->
  name <> "enable_analog_reporting"%string ->
  name <> "enable_digital_reporting"%string ->
  exists o suf,
    onMessage K core payload false tr = (o, tr ++ suf) /\
    forall c, Call c ∈ suf ->
      operation_name c
      = if String.eqb name "sonar_read" then "sonar_data_retrieve"%string
        else name.
Proof.
  intros Hdoc Hmethod Hna Hnd.
  destruct (command_map !! name) as [cmd|] eqn:Hcmd.
  - rewrite (onMessage_known K core payload d name cmd tr Hdoc Hmethod Hcmd).
    cbv zeta.
    assert (Hop : handler_operation cmd
      = if String.eqb name "sonar_read" then "sonar_data_retrieve"%string
        else name).
    { apply command_map_elem in Hcmd. vm_compute in Hcmd.
      repeat (apply elem_of_cons in Hcmd as [Hcmd|Hcmd];
        [injection Hcmd as -> ->; first [reflexivity | congruence]|]).
      inversion Hcmd. }
    rewrite <- Hop.
    destruct (Py.getitem _ 0) as [first|e].
    + destruct (negb _); apply invoke_post_operation.
    + exists (Raise e), []. rewrite app_nil_r. split; [reflexivity|].
      intros c Hin. inversion Hin.
  - rewrite (onMessage_unknown K core payload d name tr Hdoc Hmethod Hcmd).
    exists (Ok tt), []. rewrite app_nil_r. split; [reflexivity|].
    intros c Hin. inversion Hin.
Qed.

Lemma commands_reach_their_operation_witness :
  exists o suf,
    onMessage firmata_constants bench_core
      (text (message "sonar_read" (PList [PStr "7"]))) false []
    = (o, [] ++ suf) /\
    forall c, Call c ∈ suf ->
      operation_name c = "sonar_data_retrieve"%string.
Proof.
  apply (commands_reach_their_operation firmata_constants bench_core
           (text (message "sonar_read" (PList [PStr "7"])))
           [("method"%string, PStr "sonar_read");
            ("params"%string, PList [PStr "7"])] "sonar_read" []);
    [reflexivity | reflexivity | discriminate | discriminate].
Defined.

(** ** Commands that are dropped *)

(** X6.  Every handler that takes params coerces [params[0]] first: when
    that coercion raises (a non-numeric token, a nested list, null), the
    handler raises the same exception before any core call or message. *)
Theorem bad_first_param_stops_handler K core cmd first rest e tr :
  takes_command cmd = true ->
  Py.int first = Raise e ->
  invoke K core cmd [PList (first :: rest)] tr = (Raise e, tr).
Proof.
  intros Hcmd Hint.
  destruct cmd; try discriminate Hcmd; cbn [invoke with_command];
    unfold_handlers; unfold bind, lift; cbn [Py.getitem nth_error obind];
    rewrite Hint; reflexivity.
Qed.

Lemma bad_first_param_stops_handler_witness :
  invoke firmata_constants bench_core Self.servo_config
    [PList [PStr "nine"; PStr "544"; PStr "2400"]] []
  = (Raise ValueError, []).
Proof.
  apply (bad_first_param_stops_handler firmata_constants bench_core
           Self.servo_config (PStr "nine") [PStr "544"; PStr "2400"]
           ValueError []); reflexivity.
Defined.

(** X7.  The "null" test and the handler signatures must agree: a command
    whose handler takes params, sent with "null" as first param, and a
    parameterless query sent with another first param, both raise
    [TypeError] with nothing called and nothing sent. *)
Theorem arity_mismatch_raises K core payload d name cmd first rest tr :
  json_loads payload = Ok (PDict d) ->
  Py.dict_get d "method" = Some (PStr name) ->
  command_map !! name = Some cmd ->
  Py.dict_get d "params" = Some (PList (first :: rest)) ->
  Py.eq_str first "null" = takes_command cmd ->
  onMessage K core payload false tr = (Raise TypeError, tr).
Proof.
  intros Hdoc Hmethod Hcmd Hparams Hnull.
  rewrite (onMessage_known K core payload d name cmd tr Hdoc Hmethod Hcmd).
  cbv zeta. rewrite Hparams. cbn [from_option id Py.getitem nth_error].
  rewrite Hnull.
  destruct cmd; reflexivity.
Qed.

Lemma arity_mismatch_raises_witness :
  onMessage firmata_constants bench_core
    (text (message "analog_read" (PList [PStr "null"]))) false []
  = (Raise TypeError, []) /\
  onMessage firmata_constants bench_core
    (text (message "get_pymata_version" (PList [PStr "1"]))) false []
  = (Raise TypeError, []).
Proof.
  split.
  - apply (arity_mismatch_raises firmata_constants bench_core
             (text (message "analog_read" (PList [PStr "null"])))
             [("method"%string, PStr "analog_read");
              ("params"%string, PList [PStr "null"])]
             "analog_read" Self.analog_read (PStr "null") [] []);
      reflexivity.
  - apply (arity_mismatch_raises firmata_constants bench_core
             (text (message "get_pymata_version" (PList [PStr "1"])))
             [("method"%string, PStr "get_pymata_version");
              ("params"%string, PList [PStr "1"])]
             "get_pymata_version" Self.get_pymata_version (PStr "1") [] []);
      reflexivity.
Defined.

(** X8.  A text payload that does not decode, that decodes to something
    other than an object, or whose method is a list or an object makes
    [onMessage] raise before anything is called or sent; an object without a
    method field, or with a method that is not a string, is ignored
    silently. *)
Theorem malformed_text_payloads K core payload tr :
  (forall e, json_loads payload = Raise e ->
     onMessage K core payload false tr = (Raise e, tr)) /\
  (forall doc, json_loads payload = Ok doc ->
     (forall d, doc <> PDict d) ->
     onMessage K core payload false tr = (Raise AttributeError, tr)) /\
  (forall d m, json_loads payload = Ok (PDict d) ->
     Py.dict_get d "method" = Some m ->
     (exists l, m = PList l) \/ (exists items, m = PDict items) ->
     onMessage K core payload false tr = (Raise TypeError, tr)) /\
  (forall d, json_loads payload = Ok (PDict d) ->
     Py.dict_get d "method" = None ->
     onMessage K core payload false tr = (Ok tt, tr)) /\
  (forall d m, json_loads payload = Ok (PDict d) ->
     Py.dict_get d "method" = Some m ->
     (forall s, m <> PStr s) ->
     (forall l, m <> PList l) -> (forall items, m <> PDict items) ->
     onMessage K core payload false tr = (Ok tt, tr)).
Proof.
  unfold onMessage, bind, lift. repeat split.
  - intros e ->. reflexivity.
  - intros doc -> Hdoc. destruct doc; try reflexivity.
    destruct (Hdoc items eq_refl).
  - intros d m -> Hm [[l ->]|[items ->]]; cbn [Py.get]; rewrite Hm;
      reflexivity.
  - intros d -> Hm. cbn [Py.get]. rewrite Hm. reflexivity.
  - intros d m -> Hm Hs Hl Hd. cbn [Py.get]. rewrite Hm.
    destruct m; try reflexivity.
    + destruct (Hs s eq_refl).
    + destruct (Hl l eq_refl).
    + destruct (Hd items eq_refl).
Qed.

(** X9.  A binary message is never decoded or dispatched: whatever its
    content, [onMessage] prints the two status lines, the first with the
    decimal length of the payload, calls nothing and sends nothing. *)
Theorem binary_messages_are_only_logged K core payload tr :
  onMessage K core payload true tr
  = (Ok tt,
     tr ++ [Stdout ("Binary message received: "
                    +:+ pretty (payload_len payload) +:+ " bytes");
            Stdout "Expected text and not binary"]) /\
  calls (snd (onMessage K core payload true tr)) = calls tr /\
  sent (snd (onMessage K core payload true tr)) = sent tr.
Proof.
  assert (Hrun : onMessage K core payload true tr
    = (Ok tt,
       tr ++ [Stdout ("Binary message received: "
                      +:+ pretty (payload_len payload) +:+ " bytes");
              Stdout "Expected text and not binary"])).
  { unfold onMessage, print, emit, bind. rewrite <- app_assoc. reflexivity. }
  rewrite Hrun. cbn [snd]. rewrite calls_app, sent_app. cbn.
  rewrite !app_nil_r. repeat split.
Qed.

Lemma malformed_text_payloads_witness :
  onMessage firmata_constants bench_core
    {| payload_len := 3; json_loads := Raise ValueError |} false []
  = (Raise ValueError, []) /\
  onMessage firmata_constants bench_core
    (text (PList [PStr "analog_read"; PStr "2"])) false []
  = (Raise AttributeError, []) /\
  onMessage firmata_constants bench_core
    (text (PDict [("params"%string, PList [PStr "2"])])) false []
  = (Ok tt, []).
Proof.
  destruct (malformed_text_payloads firmata_constants bench_core
              {| payload_len := 3; json_loads := Raise ValueError |} [])
    as (Hraise & _).
  destruct (malformed_text_payloads firmata_constants bench_core
              (text (PList [PStr "analog_read"; PStr "2"])) [])
    as (_ & Hlist & _).
  destruct (malformed_text_payloads firmata_constants bench_core
              (text (PDict [("params"%string, PList [PStr "2"])])) [])
    as (_ & _ & _ & Hmissing & _).
  split; [|split].
  - apply Hraise. reflexivity.
  - apply (Hlist (PList [PStr "analog_read"; PStr "2"]));
      [reflexivity | discriminate].
  - apply (Hmissing [("params"%string, PList [PStr "2"])]); reflexivity.
Defined.

(** ** Replies that carry a value *)

(** X10.  When the awaited operation resolves to a truthy value that
    [json.dumps] can encode, a query other than the two latch queries sends
    exactly one reply carrying that value: after the pin for the four pin
    reads, and as the whole params for get_pin_state, i2c_read_data and the
    parameterless queries. *)
Theorem truthy_result_is_replied K core q token pin v tr :
  is_latch_query q = false ->
  Py.int token = Ok pin ->
  core tr (query_call q pin) = Ok v ->
  Py.truthy v = true ->
  Py.encodable v = true ->
  onMessage K core
    (text (message (query_method q) (query_params q token))) false tr
  = (Ok tt,
     tr ++ [Call (query_call q pin); SendMessage (value_reply q pin v)]).
Proof.
  intros Hq Hpin Hcore Htruthy Henc.
  pose proof (int_ok_not_null token pin Hpin) as Hnull.
  destruct q; try discriminate Hq;
    (erewrite onMessage_known by reflexivity);
    cbn [query_method query_params query_call value_reply message
         Py.dict_get String.eqb Ascii.eqb Bool.eqb from_option id
         Py.getitem nth_error Py.eq_str negb] in *;
    try rewrite Hnull; cbn [negb];
    run_handler; cbn [Py.getitem nth_error obind];
    try rewrite Hpin; rewrite Hcore; try rewrite Htruthy;
    cbn [Py.encodable message forallb snd andb];
    rewrite ?Henc; cbn; rewrite <- app_assoc; reflexivity.
Qed.

Lemma truthy_result_is_replied_witness :
  onMessage firmata_constants bench_core
    (text (message "analog_read" (PList [PStr "2"]))) false []
  = (Ok tt,
     [Call (Core.analog_read 2);
      SendMessage (message "analog_read_reply" (PList [PInt 2; PInt 512]))]).
Proof.
  apply (truthy_result_is_replied firmata_constants bench_core
           Q_analog_read (PStr "2") 2 (PInt 512) []); reflexivity.
Defined.



(** X12.  A truthy latch value that cannot be sliced (a number, [True], an
    object) makes [get_analog_latch_data] and [get_digital_latch_data]
    raise [TypeError] after the core call, with no reply; a record of one
    element is replied as the pin followed by the empty list. *)
Theorem latch_data_edge_values core token pin tr :
  Py.int token = Ok pin ->
  (forall v,
     core tr (Core.get_analog_latch_data pin) = Ok v ->
     Py.truthy v = true ->
     Py.slice_0_m1 v = Raise TypeError ->
     get_analog_latch_data core (PList [token]) tr
     = (Raise TypeError, tr ++ [Call (Core.get_analog_latch_data pin)])) /\
  (forall v,
     core tr (Core.get_digital_latch_data pin) = Ok v ->
     Py.truthy v = true ->
     Py.slice_0_m1 v = Raise TypeError ->
     get_digital_latch_data core (PList [token]) tr
     = (Raise TypeError, tr ++ [Call (Core.get_digital_latch_data pin)])) /\
  (forall x,
     core tr (Core.get_analog_latch_data pin) = Ok (PList [x]) ->
     get_analog_latch_data core (PList [token]) tr
     = (Ok tt,
        tr ++ [Call (Core.get_analog_latch_data pin);
               SendMessage (message "get_analog_latch_data_reply"
                 (PList [PInt pin; PList []]))])) /\
  (forall x,
     core tr (Core.get_digital_latch_data pin) = Ok (PList [x]) ->
     get_digital_latch_data core (PList [token]) tr
     = (Ok tt,
        tr ++ [Call (Core.get_digital_latch_data pin);
               SendMessage (message "get_digital_latch_data_reply"
                 (PList [PInt pin; PList []]))])).
Proof.
  intros Hpin. split; [|split; [|split]].
  - intros v Hcore Htruthy Hslice. run_handler.
    cbn [Py.getitem nth_error obind]. rewrite Hpin, Hcore, Htruthy, Hslice.
    reflexivity.
  - intros v Hcore Htruthy Hslice. run_handler.
    cbn [Py.getitem nth_error obind]. rewrite Hpin, Hcore, Htruthy, Hslice.
    reflexivity.
  - intros x Hcore. run_handler.
    cbn [Py.getitem nth_error obind]. rewrite Hpin, Hcore. cbn.
    rewrite <- app_assoc. reflexivity.
  - intros x Hcore. run_handler.
    cbn [Py.getitem nth_error obind]. rewrite Hpin, Hcore. cbn.
    rewrite <- app_assoc. reflexivity.
Qed.

Lemma latch_data_edge_values_witness :
  get_analog_latch_data (fun _ _ => Ok (PInt 1)) (PList [PStr "3"]) []
  = (Raise TypeError, [Call (Core.get_analog_latch_data 3)]) /\
  get_digital_latch_data
    (fun _ _ => Ok (PList [PObject "callback"])) (PList [PStr "3"]) []
  = (Ok tt,
     [Call (Core.get_digital_latch_data 3);
      SendMessage (message "get_digital_latch_data_reply"
        (PList [PInt 3; PList []]))]).
Proof.
  destruct (latch_data_edge_values (fun _ _ => Ok (PInt 1)) (PStr "3") 3 []
              eq_refl) as (Hnumber & _).
  destruct (latch_data_edge_values
              (fun _ _ => Ok (PList [PObject "callback"])) (PStr "3") 3 []
              eq_refl) as (_ & _ & _ & Hone).
  split.
  - apply (Hnumber (PInt 1)); reflexivity.
  - apply (Hone (PObject "callback")); reflexivity.
Defined.

(** ** Callbacks *)

(** X13.  Each callback either sends exactly one message, whose method is
    the notification name of that callback, or raises having sent nothing;
    it never calls the core. *)
Theorem callbacks_notify_once fromtimestamp cb data tr :
  exists o suf,
    run_callback fromtimestamp cb data tr = (o, tr ++ suf) /\
    match o with
    | Ok _ => exists params,
        suf = [SendMessage (message (notification cb) params)]
    | Raise _ => suf = []
    end.
Proof.
  revert tr. change (post (run_callback fromtimestamp cb data) (fun o suf =>
    match o with
    | Ok _ => exists params,
        suf = [SendMessage (message (notification cb) params)]
    | Raise _ => suf = []
    end)).
  destruct cb; cbn [run_callback notification]; unfold_handlers; walk;
    eauto.
Qed.

(** X14.  [analog_callback] and [digital_callback] forward the first two
    elements of the event only: for data [pin, value, ...] they send
    [analog_message_reply] / [digital_message_reply] with params
    [[pin, value]], and any further element is dropped. *)
Theorem pin_callbacks_forward_pin_and_value pin value rest tr :
  Py.encodable pin = true ->
  Py.encodable value = true ->
  analog_callback (PList (pin :: value :: rest)) tr
  = (Ok tt,
     tr ++ [SendMessage
              (message "analog_message_reply" (PList [pin; value]))]) /\
  digital_callback (PList (pin :: value :: rest)) tr
  = (Ok tt,
     tr ++ [SendMessage
              (message "digital_message_reply" (PList [pin; value]))]).
Proof.
  intros Hpin Hvalue.
  unfold analog_callback, digital_callback, sendMessage, json_dumps, item,
    emit, bind, lift, ret, raise.
  cbn [Py.getitem nth_error Py.encodable message forallb snd].
  rewrite Hpin, Hvalue. split; reflexivity.
Qed.

Lemma pin_callbacks_forward_pin_and_value_witness :
  digital_callback (PList [PInt 4; PInt 1]) []
  = (Ok tt,
     [SendMessage (message "digital_message_reply" (PList [PInt 4; PInt 1]))]).
Proof.
  apply (pin_callbacks_forward_pin_and_value (PInt 4) (PInt 1) [] []);
    reflexivity.
Defined.

(** X15.  A pin or latch callback given an event that is too short raises
    [IndexError] and sends nothing, and a latch callback whose timestamp
    cannot be converted raises the conversion's exception and sends nothing:
    the timestamp is converted before pin and value are read. *)
Theorem short_or_undated_events_send_nothing fromtimestamp tr :
  (forall l, (length l < 2)%nat ->
     analog_callback (PList l) tr = (Raise IndexError, tr) /\
     digital_callback (PList l) tr = (Raise IndexError, tr)) /\
  (forall l, (length l < 3)%nat ->
     analog_latch_callback fromtimestamp (PList l) tr
     = (Raise IndexError, tr) /\
     digital_latch_callback fromtimestamp (PList l) tr
     = (Raise IndexError, tr)) /\
  (forall pin value ts rest e, fromtimestamp ts = Raise e ->
     analog_latch_callback fromtimestamp
       (PList (pin :: value :: ts :: rest)) tr = (Raise e, tr) /\
     digital_latch_callback fromtimestamp
       (PList (pin :: value :: ts :: rest)) tr = (Raise e, tr)).
Proof.
  unfold analog_callback, digital_callback, analog_latch_callback,
    digital_latch_callback, sendMessage, json_dumps, item, emit, bind, lift,
    ret, raise.
  split; [|split].
  - intros [|a [|b l]] Hl; cbn in Hl; try lia; split; reflexivity.
  - intros [|a [|b [|c l]]] Hl; cbn in Hl; try lia; split; reflexivity.
  - intros pin value ts rest e Hts. cbn [Py.getitem nth_error].
    rewrite Hts. split; reflexivity.
Qed.

Lemma short_or_undated_events_send_nothing_witness :
  digital_callback (PList [PInt 4]) [] = (Raise IndexError, []) /\
  analog_latch_callback utc_fromtimestamp
    (PList [PInt 2; PInt 512; PStr "yesterday"]) []
  = (Raise TypeError, []).
Proof.
  destruct (short_or_undated_events_send_nothing utc_fromtimestamp [])
    as (Hshort & _ & Hundated).
  split.
  - apply (Hshort [PInt 4]). cbn. lia.
  - apply (Hundated (PInt 2) (PInt 512) (PStr "yesterday") [] TypeError).
    reflexivity.
Defined.

(** X16.  The encoder, sonar and i2c callbacks forward the event as
    delivered: the whole data is the params of the notification when
    [json.dumps] can encode it, and otherwise [TypeError] is raised and
    nothing is sent. *)
Theorem data_callbacks_forward_as_delivered data tr :
  (Py.encodable data = true ->
   encoder_callback data tr
   = (Ok tt, tr ++ [SendMessage (message "encoder_data_reply" data)]) /\
   sonar_callback data tr
   = (Ok tt, tr ++ [SendMessage (message "sonar_data_reply" data)]) /\
   i2c_read_request_callback data tr
   = (Ok tt, tr ++ [SendMessage (message "i2c_read_request_reply" data)]) /\
   i2c_read_data_callback data tr
   = (Ok tt, tr ++ [SendMessage (message "i2c_read_data_reply" data)])) /\
  (Py.encodable data = false ->
   encoder_callback data tr = (Raise TypeError, tr) /\
   sonar_callback data tr = (Raise TypeError, tr) /\
   i2c_read_request_callback data tr = (Raise TypeError, tr) /\
   i2c_read_data_callback data tr = (Raise TypeError, tr)).
Proof.
  unfold encoder_callback, sonar_callback, i2c_read_request_callback,
    i2c_read_data_callback, sendMessage, json_dumps, emit, bind, ret, raise.
  cbn [Py.encodable message forallb snd andb].
  split; intros ->; repeat split.
Qed.

Lemma data_callbacks_forward_as_delivered_witness :
  sonar_callback (PList [PInt 12; PInt 37]) []
  = (Ok tt,
     [SendMessage (message "sonar_data_reply" (PList [PInt 12; PInt 37]))]) /\
  encoder_callback (PObject "future") [] = (Raise TypeError, []).
Proof.
  destruct (data_callbacks_forward_as_delivered
              (PList [PInt 12; PInt 37]) []) as (Hok & _).
  destruct (data_callbacks_forward_as_delivered (PObject "future") [])
    as (_ & Hbad).
  split.
  - apply Hok. reflexivity.
  - apply Hbad. reflexivity.
Defined.

(** ** Subscriptions *)

(** X17.  Only the six subscription commands hand a callback to the core,
    and each hands over its own: [encoder_config] the encoder callback,
    [sonar_config] the sonar callback, [i2c_read_request] the i2c read
    callback, the two latch setters their latch callback, and
    [set_pin_mode] the digital or the analog callback.  No other command
    registers anything. *)
Theorem handlers_register_their_callbacks K core cmd args tr :
  exists o suf,
    invoke K core cmd args tr = (o, tr ++ suf) /\
    forall c cb, Call c ∈ suf -> registered c = Some cb ->
      cb ∈ subscribes cmd.
Proof.
  revert tr. change (post (invoke K core cmd args) (fun _ suf =>
    forall c cb, Call c ∈ suf -> registered c = Some cb ->
      cb ∈ subscribes cmd)).
  destruct cmd; cbn [invoke subscribes]; unfold_handlers; walk;
    intros c cb Hin Hreg;
    repeat (apply elem_of_cons in Hin as [Hin|Hin];
      [first [discriminate Hin | injection Hin as ->];
       cbn in Hreg; repeat case_match;
       first [discriminate Hreg | injection Hreg as <-; set_solver]|]);
    inversion Hin.
Qed.

(** X18.  [set_pin_mode] calls the core with the coerced pin and mode and
    registers the digital callback exactly when the mode is
    [Constants.INPUT], the analog callback when it is not [INPUT] but is
    [Constants.ANALOG], and no callback for any other mode; it sends
    nothing. *)
Theorem set_pin_mode_registers_by_mode K core a b pin mode tr :
  Py.int a = Ok pin ->
  Py.int b = Ok mode ->
  exists cb,
    snd (set_pin_mode K core (PList [a; b]) tr)
    = tr ++ [Call (Core.set_pin_mode pin mode cb)] /\
    (mode = INPUT K -> cb = Some cb_digital_callback) /\
    (mode <> INPUT K -> mode = ANALOG K -> cb = Some cb_analog_callback) /\
    (mode <> INPUT K -> mode <> ANALOG K -> cb = None).
Proof.
  intros Ha Hb. eexists. split.
  - unfold set_pin_mode, int_at, await, bind, lift, ret.
    cbn [Py.getitem nth_error obind]. rewrite Ha, Hb.
    destruct (core tr _); reflexivity.
  - destruct (Z.eqb_spec mode (INPUT K)) as [Hi|Hi];
      [|destruct (Z.eqb_spec mode (ANALOG K)) as [Han|Han]];
      repeat split; intros; congruence.
Qed.

Lemma set_pin_mode_registers_by_mode_witness :
  exists cb,
    snd (set_pin_mode firmata_constants bench_core
           (PList [PStr "14"; PStr "2"]) [])
    = [] ++ [Call (Core.set_pin_mode 14 2 cb)] /\
    (2 = INPUT firmata_constants -> cb = Some cb_digital_callback) /\
    (2 <> INPUT firmata_constants -> 2 = ANALOG firmata_constants ->
     cb = Some cb_analog_callback) /\
    (2 <> INPUT firmata_constants -> 2 <> ANALOG firmata_constants ->
     cb = None).
Proof.
  apply (set_pin_mode_registers_by_mode firmata_constants bench_core
           (PStr "14") (PStr "2") 14 2 []); reflexivity.
Defined.

(** X19.  [play_tone] plays only on the exact token "TONE_TONE": any other
    second param, the token "TONE_NO_TONE" or a number included, selects
    [Constants.TONE_NO_TONE]; pin, frequency and duration are coerced and
    passed in order and nothing is sent. *)
Theorem play_tone_command_fallback K core a token f d pin freq dur tr :
  Py.int a = Ok pin ->
  Py.int f = Ok freq ->
  Py.int d = Ok dur ->
  (token = PStr "TONE_TONE" ->
   snd (play_tone K core (PList [a; token; f; d]) tr)
   = tr ++ [Call (Core.play_tone pin (TONE_TONE K) freq dur)]) /\
  (token <> PStr "TONE_TONE" ->
   snd (play_tone K core (PList [a; token; f; d]) tr)
   = tr ++ [Call (Core.play_tone pin (TONE_NO_TONE K) freq dur)]).
Proof.
  intros Ha Hf Hd.
  unfold play_tone, int_at, item, await, bind, lift, ret.
  cbn [Py.getitem nth_error obind]. rewrite Ha, Hf, Hd.
  split.
  - intros ->. cbn [Py.eq_str]. rewrite String.eqb_refl.
    destruct (core tr _); reflexivity.
  - intros Hne. apply eq_str_false_iff in Hne. rewrite Hne.
    destruct (core tr _); reflexivity.
Qed.

Lemma play_tone_command_fallback_witness :
  snd (play_tone firmata_constants bench_core
         (PList [PStr "3"; PInt 0; PStr "1000"; PStr "500"]) [])
  = [Call (Core.play_tone 3 1 1000 500)].
Proof.
  destruct (play_tone_command_fallback firmata_constants bench_core
              (PStr "3") (PInt 0) (PStr "1000") (PStr "500")
              3 1000 500 [] eq_refl eq_refl eq_refl) as (_ & Hother).
  apply Hother. discriminate.
Defined.

(** ** Sequences of integers *)

Lemma ints_Forall2 (l : list pyval) (ns : list Z) :
  ints l = Ok ns <-> Forall2 (fun v n => Py.int v = Ok n) l ns.
Proof.
  revert ns. induction l as [|v l IH]; intros ns; cbn [ints].
  - split.
    + intros [= <-]. constructor.
    + intros H. inversion H. reflexivity.
  - split.
    + destruct (Py.int v) as [n|e] eqn:Hv; cbn [obind]; [|discriminate].
      destruct (ints l) as [ms|e] eqn:Hl; cbn [obind]; [|discriminate].
      intros [= <-]. constructor; [exact Hv|]. apply IH. reflexivity.
    + intros H. inversion H as [|? n ? ms Hv Hrest]; subst.
      rewrite Hv. cbn [obind]. apply IH in Hrest. rewrite Hrest.
      reflexivity.
Qed.

Lemma ints_raise (l : list pyval) :
  Exists (fun v => exists e, Py.int v = Raise e) l ->
  exists e, ints l = Raise e.
Proof.
  induction l as [|v l IH]; intros H; inversion H as [? ? [e He]|? ? Hl];
    subst; cbn [ints].
  - rewrite He. eauto.
  - destruct (Py.int v); cbn [obind]; [|eauto].
    destruct (IH Hl) as [e ->]. eauto.
Qed.

(** X20.  [i2c_write_request] coerces every element of the data list, in
    order, and calls the core with the coerced address and the list of
    coerced values; if any one element cannot be coerced, the core is not
    called at all. *)
Theorem i2c_write_request_coerces_all core a data addr tr :
  Py.int a = Ok addr ->
  (forall ns, Forall2 (fun v n => Py.int v = Ok n) data ns ->
     snd (i2c_write_request core (PList [a; PList data]) tr)
     = tr ++ [Call (Core.i2c_write_request addr ns)]) /\
  (Exists (fun v => exists e, Py.int v = Raise e) data ->
   exists e,
     i2c_write_request core (PList [a; PList data]) tr = (Raise e, tr)).
Proof.
  intros Ha.
  unfold i2c_write_request, int_at, item, await, bind, lift, ret.
  cbn [Py.getitem nth_error obind Py.iter]. rewrite Ha.
  split.
  - intros ns Hns. apply ints_Forall2 in Hns. rewrite Hns.
    destruct (core tr _); reflexivity.
  - intros Hbad. destruct (ints_raise data Hbad) as [e ->]. eauto.
Qed.

Lemma i2c_write_request_coerces_all_witness :
  snd (i2c_write_request bench_core
         (PList [PStr "104"; PList [PStr "107"; PInt 0]]) [])
  = [Call (Core.i2c_write_request 104 [107; 0])] /\
  (exists e,
     i2c_write_request bench_core
       (PList [PStr "104"; PList [PStr "107"; PStr "x"]]) []
     = (Raise e, [])).
Proof.
  destruct (i2c_write_request_coerces_all bench_core (PStr "104")
              [PStr "107"; PInt 0] 104 [] eq_refl) as (Hall & _).
  destruct (i2c_write_request_coerces_all bench_core (PStr "104")
              [PStr "107"; PStr "x"] 104 [] eq_refl) as (_ & Hbad).
  split.
  - apply (Hall [107; 0]). repeat constructor.
  - apply Hbad. right. left. exists ValueError. reflexivity.
Defined.

(** X21.  [stepper_config] takes the pins from the nested list at
    [params[1]]: the first four are coerced and passed, further pins are
    ignored, and with fewer than four pins the handler raises [IndexError]
    without calling the core. *)
Theorem stepper_config_takes_four_pins core s steps tr :
  Py.int s = Ok steps ->
  (forall p1 p2 p3 p4 rest n1 n2 n3 n4,
     Py.int p1 = Ok n1 -> Py.int p2 = Ok n2 ->
     Py.int p3 = Ok n3 -> Py.int p4 = Ok n4 ->
     snd (stepper_config core
            (PList [s; PList (p1 :: p2 :: p3 :: p4 :: rest)]) tr)
     = tr ++ [Call (Core.stepper_config steps [n1; n2; n3; n4])]) /\
  (forall pins, (length pins < 4)%nat ->
     Forall (fun p => exists n, Py.int p = Ok n) pins ->
     stepper_config core (PList [s; PList pins]) tr
     = (Raise IndexError, tr)).
Proof.
  intros Hs.
  unfold stepper_config, int_at, item, await, bind, lift, ret.
  cbn [Py.getitem nth_error obind]. rewrite Hs.
  split.
  - intros p1 p2 p3 p4 rest n1 n2 n3 n4 H1 H2 H3 H4.
    rewrite H1, H2, H3, H4. destruct (core tr _); reflexivity.
  - intros pins Hlen Hpins.
    repeat (destruct pins as [|? pins];
      [reflexivity
      |apply Forall_cons in Hpins as [[? Hp] Hpins];
       cbn [Py.getitem nth_error obind]; rewrite Hp; clear Hp]).
    cbn in Hlen. lia.
Qed.

Lemma stepper_config_takes_four_pins_witness :
  snd (stepper_config bench_core
         (PList [PStr "200";
                 PList [PStr "8"; PStr "9"; PStr "10"; PStr "11";
                        PStr "12"]]) [])
  = [Call (Core.stepper_config 200 [8; 9; 10; 11])] /\
  stepper_config bench_core
    (PList [PStr "200"; PList [PStr "8"; PStr "9"; PStr "10"]]) []
  = (Raise IndexError, []).
Proof.
  destruct (stepper_config_takes_four_pins bench_core (PStr "200") 200 []
              eq_refl) as (Hfour & Hshort).
  split.
  - apply (Hfour (PStr "8") (PStr "9") (PStr "10") (PStr "11")
             [PStr "12"] 8 9 10 11); reflexivity.
  - apply (Hshort [PStr "8"; PStr "9"; PStr "10"]); [cbn; lia|].
    repeat constructor; eexists; reflexivity.
Defined.

(** ** Decimal tokens *)

Lemma is_digit_not_space (c : ascii) :
  Py.is_digit c = true -> Py.is_space c = false.
Proof.
  unfold Py.is_digit, Py.is_space. cbv zeta. intros H.
  apply andb_prop in H as [H1 H2]. apply N.leb_le in H1, H2.
  repeat match goal with
  | |- context [(?a <=? ?b)%N] => destruct (N.leb_spec a b)
  | |- context [(?a =? ?b)%N] => destruct (N.eqb_spec a b)
  end; try reflexivity; lia.
Qed.

Lemma is_digit_not_sign (c : ascii) :
  Py.is_digit c = true ->
  Ascii.eqb c "-" = false /\ Ascii.eqb c "+" = false.
Proof.
  intros H. split.
  - destruct (Ascii.eqb_spec c "-") as [->|]; [discriminate H|reflexivity].
  - destruct (Ascii.eqb_spec c "+") as [->|]; [discriminate H|reflexivity].
Qed.

Lemma pretty_N_char_digit (d : N) :
  (d < 10)%N ->
  Py.is_digit (pretty_N_char d) = true /\
  Py.digit_val (pretty_N_char d) = Z.of_N d.
Proof.
  intros Hd.
  assert (d = 0 \/ d = 1 \/ d = 2 \/ d = 3 \/ d = 4 \/ d = 5 \/ d = 6
          \/ d = 7 \/ d = 8 \/ d = 9)%N as Hcases by lia.
  repeat (destruct Hcases as [->|Hcases]; [split; reflexivity|]).
  subst d. split; reflexivity.
Qed.

(** The characters [pretty_N_go] puts in front of [s] are digits that
    [digits_go] reads back as the number. *)
Lemma pretty_N_go_digits (x : N) (s : string) :
  exists l,
    list_ascii_of_string (pretty_N_go x s) = l ++ list_ascii_of_string s /\
    Forall (fun c => Py.is_digit c = true) l /\
    ((0 < x)%N -> l <> []) /\
    forall acc r,
      Py.digits_go acc false (l ++ r)
      = Py.digits_go (acc * 10 ^ Z.of_nat (length l) + Z.of_N x) false r.
Proof.
  revert s. induction (N.lt_wf_0 x) as [x _ IH]. intros s.
  assert (x = 0 \/ 0 < x)%N as [->|Hx] by lia.
  - exists []. rewrite pretty_N_go_0. repeat split; [constructor|lia|].
    intros acc r. cbn [app length]. f_equal. cbn. lia.
  - rewrite pretty_N_go_step by exact Hx.
    destruct (IH (x `div` 10)%N (N.div_lt x 10 Hx eq_refl)
                (String (pretty_N_char (x `mod` 10)) s))
      as (l & Hl & Hdigits & _ & Hgo).
    destruct (pretty_N_char_digit (x `mod` 10)%N) as [Hc Hv].
    { apply N.mod_lt. discriminate. }
    exists (l ++ [pretty_N_char (x `mod` 10)]). repeat split.
    + rewrite Hl. cbn [list_ascii_of_string]. rewrite <- app_assoc.
      reflexivity.
    + apply Forall_app. split; [exact Hdigits|]. repeat constructor.
      exact Hc.
    + intros _ Hnil. apply app_eq_nil in Hnil as [_ Hnil]. discriminate.
    + intros acc r. rewrite <- app_assoc. cbn [app].
      rewrite Hgo. cbn [Py.digits_go]. rewrite Hc, Hv. f_equal.
      rewrite length_app. cbn [length].
      rewrite Nat2Z.inj_add, Z.pow_add_r by lia.
      rewrite N2Z.inj_div, N2Z.inj_mod. change (Z.of_N 10) with 10.
      change (Z.of_nat 1) with 1. rewrite Z.pow_1_r.
      pose proof (Z.div_mod (Z.of_N x) 10 ltac:(lia)). lia.
Qed.

Lemma strip_id (l m m' : list ascii) (c c' : ascii) :
  l = c :: m -> rev l = c' :: m' ->
  Py.is_space c = false -> Py.is_space c' = false ->
  Py.strip l = l.
Proof.
  intros Hl Hrev Hc Hc'. unfold Py.strip.
  assert (Hhead : Py.lstrip l = l).
  { rewrite Hl. cbn [Py.lstrip]. rewrite Hc. reflexivity. }
  rewrite Hhead, Hrev. cbn [Py.lstrip]. rewrite Hc', <- Hrev.
  apply rev_involutive.
Qed.

Lemma int_of_str_pretty_N (x : N) :
  Py.int_of_str (pretty x) = Some (Z.of_N x) /\
  (x <> 0%N ->
   exists c m c' m',
     list_ascii_of_string (pretty x) = c :: m /\
     rev (list_ascii_of_string (pretty x)) = c' :: m' /\
     Py.is_digit c = true /\ Py.is_digit c' = true /\
     Py.digits (c :: m) = Some (Z.of_N x)).
Proof.
  unfold pretty, pretty_N. destruct (decide (x = 0%N)) as [->|Hx].
  { split; [reflexivity|congruence]. }
  destruct (pretty_N_go_digits x EmptyString)
    as (l & Hl & Hdigits & Hne & Hgo).
  cbn [list_ascii_of_string] in Hl. rewrite app_nil_r in Hl.
  specialize (Hne ltac:(lia)).
  destruct l as [|c m]; [congruence|].
  destruct (rev (c :: m)) as [|c' m'] eqn:Hrev.
  { apply (f_equal (@length ascii)) in Hrev. rewrite length_rev in Hrev.
    discriminate Hrev. }
  assert (Hc : Py.is_digit c = true).
  { apply Forall_cons in Hdigits as [Hc _]. exact Hc. }
  assert (Hc' : Py.is_digit c' = true).
  { apply List.Forall_rev in Hdigits. rewrite Hrev in Hdigits.
    apply Forall_cons in Hdigits as [Hc' _]. exact Hc'. }
  assert (Hread : Py.digits (c :: m) = Some (Z.of_N x)).
  { specialize (Hgo 0 []). rewrite app_nil_r in Hgo.
    cbn [Py.digits_go] in Hgo. rewrite Hc in Hgo.
    cbn [Py.digits]. rewrite Hc.
    change (Py.digit_val c) with (10 * 0 + Py.digit_val c).
    rewrite Hgo. reflexivity. }
  split.
  - unfold Py.int_of_str. rewrite Hl.
    rewrite (strip_id (c :: m) m m' c c' eq_refl Hrev
               (is_digit_not_space c Hc) (is_digit_not_space c' Hc')).
    destruct (is_digit_not_sign c Hc) as [-> ->]. exact Hread.
  - intros _. exists c, m, c', m'. rewrite Hl. auto.
Qed.

(** [int] reads the decimal rendering of an integer back as that integer. *)
Lemma int_pretty (n : Z) : Py.int (PStr (pretty n)) = Ok n.
Proof.
  cbn [Py.int]. destruct n as [|p|p].
  - reflexivity.
  - change (pretty (Z.pos p)) with (pretty (N.pos p)).
    destruct (int_of_str_pretty_N (N.pos p)) as [-> _]. reflexivity.
  - change (pretty (Z.neg p)) with (String "-" (pretty (N.pos p))).
    destruct (int_of_str_pretty_N (N.pos p)) as [_ Hshape].
    destruct (Hshape ltac:(discriminate))
      as (c & m & c' & m' & Hl & Hrev & Hc & Hc' & Hread).
    unfold Py.int_of_str. cbn [list_ascii_of_string]. rewrite Hl.
    rewrite (strip_id ("-"%char :: c :: m) (c :: m) (m' ++ ["-"%char])
               "-"%char c' eq_refl);
      [|rewrite Hl in Hrev; cbn [rev] in *; rewrite Hrev; reflexivity
       |reflexivity|exact (is_digit_not_space c' Hc')].
    cbn [Ascii.eqb Bool.eqb]. rewrite Hread. reflexivity.
Qed.

(** ** A whole connection *)

Lemma serve_footprint K core (msgs : list (payload_t * bool)) tr :
  exists suf,
    fold_left (fun tr m => snd (onMessage K core (fst m) (snd m) tr)) msgs tr
    = tr ++ suf /\
    (length (calls suf) <= length msgs)%nat /\
    (length (sent suf) <= length msgs)%nat.
Proof.
  revert tr. induction msgs as [|[payload is_binary] msgs IH]; intros tr.
  - exists []. rewrite app_nil_r. cbn. repeat split; lia.
  - cbn [fold_left fst snd].
    destruct (onMessage_footprint K core payload is_binary tr)
      as (o & suf & -> & Hcalls & Hsent & _).
    cbn [snd]. destruct (IH (tr ++ suf)) as (suf' & -> & Hcalls' & Hsent').
    exists (suf ++ suf'). rewrite app_assoc, calls_app, sent_app, !length_app.
    cbn [length]. repeat split; lia.
Qed.

(** X22.  Over one connection served event by event (open, then the
    messages in order, then close), the core sees [send_reset] first and
    [shutdown] last, with at most one call per message in between, and the
    client is sent at most one message per inbound message. *)
Theorem connection_footprint K core (msgs : list (payload_t * bool))
    was_clean code reason tr :
  let opened := snd (onOpen core tr) in
  let served :=
    fold_left (fun tr m => snd (onMessage K core (fst m) (snd m) tr))
      msgs opened in
  let closed := snd (onClose core was_clean code reason served) in
  exists mid,
    calls closed = calls tr ++ [Core.send_reset] ++ mid ++ [Core.shutdown] /\
    (length mid <= length msgs)%nat /\
    (length (sent closed) <= length (sent tr) + length msgs)%nat.
Proof.
  cbv zeta.
  assert (Hopen : snd (onOpen core tr)
    = tr ++ [Stdout "WebSocket connection open."; Call Core.send_reset]).
  { unfold onOpen, print, emit, await, bind, ret.
    destruct (core _ _); cbn; rewrite <- app_assoc; reflexivity. }
  rewrite Hopen.
  destruct (serve_footprint K core msgs
              (tr ++ [Stdout "WebSocket connection open.";
                      Call Core.send_reset]))
    as (suf & -> & Hcalls & Hsent).
  assert (Hclose : forall tr',
    snd (onClose core was_clean code reason tr')
    = tr' ++ [Stdout ("WebSocket connection closed: " +:+ reason_str reason);
              Call Core.shutdown]).
  { intros tr'. unfold onClose, print, emit, await, bind, ret.
    destruct (core _ _); cbn; rewrite <- app_assoc; reflexivity. }
  rewrite Hclose. exists (calls suf).
  rewrite !calls_app, !sent_app, !length_app. cbn.
  rewrite <- !app_assoc. cbn. repeat split; lia.
Qed.

(** ** Integer commands end to end *)

(** X23.  For each command whose params are integers, sent with every
    integer as its decimal string in the documented order, the dispatcher
    makes exactly one core call: the operation of that command with the
    integers in the documented positions and, for the subscriptions, the
    callback of that command. *)
Theorem numeric_commands_reach_core K core (w : numeric_command) tr :
  calls (snd (onMessage K core (text (numeric_message w)) false tr))
  = calls tr ++ [numeric_call w].
Proof.
  assert (Hpost : post (onMessage K core (text (numeric_message w)) false)
            (fun _ suf => calls suf = [numeric_call w])).
  { intros tr'.
    assert (Hnull :
      forall n : Z, Py.eq_str (PStr (pretty n)) "null" = false).
    { intros n. exact (int_ok_not_null _ _ (int_pretty n)). }
    destruct w; unfold numeric_message;
      (erewrite onMessage_known by reflexivity);
      cbn [numeric_method numeric_params numeric_call List.map message
           Py.dict_get String.eqb Ascii.eqb Bool.eqb from_option id
           Py.getitem nth_error];
      rewrite Hnull; cbn [negb invoke with_command snd];
      revert tr';
      lazymatch goal with
      | |- forall t, exists o suf, ?m t = (o, t ++ suf) /\ calls suf = ?c =>
          change (post m (fun _ suf => calls suf = c))
      end;
      unfold_handlers;
      cbn [Py.getitem nth_error obind]; rewrite ?int_pretty;
      walk; reflexivity. }
  destruct (post_run _ _ tr Hpost) as (suf & -> & Hcalls).
  rewrite calls_app, Hcalls. reflexivity.
Qed.
